(** * save-system: the in-memory TTL cache of the saves router

    Shallow embedding of the cache in front of the save-file listing
    ([getCache], [setCache], [invalidateCache], [CACHE_TTL_MS]) and of the
    three route handlers that use it ([GET /], [POST /upload],
    [DELETE /:fileName]).

    Conventions of the model:
    - the module-level object [cache = {}] is a finite map from property
      names to entries; the keys are the ones the handlers build,
      [user:<id>:saves];
    - [Date.now()] is an explicit argument [now], in milliseconds;
    - a function that mutates [cache] returns the new cache next to its
      result;
    - an awaited call of the Supabase SDK is represented by the way it
      settles. *)

From stdpp Require Import gmap strings list.
From stdpp Require Import pretty.

Local Open Scope string_scope.
Local Open Scope Z_scope.
Local Set Warnings "-register-all,-clear-no-such-hyp".

(** ** JavaScript values *)

(** The payloads that flow through the cache and the SDK results.  Numbers
    are the integers (identifiers, sizes, timestamps). *)
Inductive value : Type :=
  | VUndefined
  | VNull
  | VBool (b : bool)
  | VNum (n : Z)
  | VStr (s : string)
  | VArr (items : list value)
  | VObj (fields : list (string * value)).

(** [if (v)]: every array and every object is truthy, the empty array too. *)
Definition truthy (v : value) : bool :=
  match v with
  | VUndefined | VNull => false
  | VBool b => b
  | VNum n => negb (n =? 0)
  | VStr s => negb (String.eqb s "")
  | VArr _ | VObj _ => true
  end.

(** ** The cache *)

Module Cache.

(** [{ data: data, timestamp: Date.now() }] *)
Record entry : Type := Entry { data : value; timestamp : Z }.

Definition CACHE_TTL_MS : Z := 5 * 60 * 1000.

(** [getCache(key)]: the value returned and the cache left behind.  An
    entry is an object, hence truthy: [if (entry)] is the presence test. *)
Definition getCache (now : Z) (key : string) (cache : gmap string entry)
  : value * gmap string entry :=
  match cache !! key with
  | Some entry =>
      if now - timestamp entry <? CACHE_TTL_MS
      then (data entry, cache)
      else (VNull, delete key cache)
  | None => (VNull, cache)
  end.

(** [setCache(key, data)] *)
Definition setCache (now : Z) (key : string) (d : value)
    (cache : gmap string entry) : gmap string entry :=
  <[key := {| data := d; timestamp := now |}]> cache.

(** [invalidateCache(key)] *)
Definition invalidateCache (key : string) (cache : gmap string entry)
  : gmap string entry :=
  match cache !! key with
  | Some _ => delete key cache
  | None => cache
  end.

(** The three-method interface as data: one call of the cache, made at a
    given reading of the clock. *)
Inductive op : Type :=
  | OpGet (key : string)
  | OpSet (key : string) (d : value)
  | OpInvalidate (key : string).

Definition op_key (o : op) : string :=
  match o with
  | OpGet key | OpSet key _ | OpInvalidate key => key
  end.

Definition apply_op (now : Z) (o : op) (cache : gmap string entry)
  : gmap string entry :=
  match o with
  | OpGet key => (getCache now key cache).2
  | OpSet key d => setCache now key d cache
  | OpInvalidate key => invalidateCache key cache
  end.

(** A sequence of calls, each with its own [Date.now()]. *)
Fixpoint run (calls : list (Z * op)) (cache : gmap string entry)
  : gmap string entry :=
  match calls with
  | [] => cache
  | (now, o) :: rest => run rest (apply_op now o cache)
  end.

(** Repeated reads of one key. *)
Definition reads (key : string) (times : list Z) : list (Z * op) :=
  (λ now, (now, OpGet key)) <$> times.

End Cache.

Import Cache.

(** ** The router module *)

(** What loading the module binds at its top level: the two settings read
    from [process.env] for the Supabase client, and the empty [cache].
    [CACHE_TTL_MS] is the constant above; nothing is read for it. *)
Record router_module : Type := RouterModule {
  supabaseUrl : string;
  supabaseAnonKey : string;
  cache : gmap string entry
}.

(** Loading the module.  [createClient(supabaseUrl, supabaseAnonKey)] runs
    before [cache] is bound and throws when either setting is missing or
    empty: the module then does not load, and there is no cache. *)
Definition load_router (env : gmap string string) : option router_module :=
  match env !! "SUPABASE_URL", env !! "SUPABASE_ANON_KEY" with
  | Some url, Some key =>
      if String.eqb url "" || String.eqb key ""
      then None
      else Some {| supabaseUrl := url; supabaseAnonKey := key; cache := ∅ |}
  | _, _ => None
  end.

(** ** The cache as the spec words it *)

(** Following the spec's words, to be compared with the code: a cache
    whose one configuration value is the option [ttlMs], "cache entry
    lifetime in milliseconds, default 300000".  The options are read off
    the process environment, the only configuration the program has. *)
Module Spec.

Definition digit (a : Ascii.ascii) : option Z :=
  let n := Z.of_nat (Ascii.nat_of_ascii a) in
  if (48 <=? n) && (n <=? 57) then Some (n - 48) else None.

Fixpoint digits (acc : Z) (s : string) : option Z :=
  match s with
  | EmptyString => Some acc
  | String a rest =>
      match digit a with
      | Some d => digits (acc * 10 + d) rest
      | None => None
      end
  end.

(** A decimal numeral. *)
Definition number (s : string) : option Z :=
  match s with
  | EmptyString => None
  | _ => digits 0 s
  end.

(** "recognized option: ttlMs ... default 300000" *)
Definition ttlMs (env : gmap string string) : Z :=
  match env !! "ttlMs" with
  | Some s => match number s with Some n => n | None => 300000 end
  | None => 300000
  end.

(** "returns the stored value if an entry exists for key and
    now - storedAt < TTL; otherwise returns absent and, as a side effect,
    removes the entry if it existed but was expired.  No side effects on a
    true miss." *)
Definition get (ttl now : Z) (key : string) (cache : gmap string entry)
  : value * gmap string entry :=
  match cache !! key with
  | Some e =>
      if bool_decide (now - timestamp e < ttl)
      then (data e, cache)
      else (VNull, delete key cache)
  | None => (VNull, cache)
  end.

End Spec.

(** [`user:${user.id}:saves`] *)
Definition cacheKey (user_id : string) : string :=
  "user:" +:+ user_id +:+ ":saves".

(** ** Requests, SDK results and responses *)

(** [res.status(status).json(body)] *)
Record response : Type := Response { status : Z; body : value }.

(** How an awaited promise settles; a rejection carries the [message] of
    the error thrown at the [await]. *)
Inductive settled (A : Type) : Type :=
  | Resolved (a : A)
  | Rejected (message : string).
Arguments Resolved {A} a.
Arguments Rejected {A} message.

(** The [{ data, error }] object the SDK resolves with. *)
Record sdk_result : Type := SdkResult { sdk_data : value; sdk_error : value }.

Fixpoint assoc (name : string) (fields : list (string * value)) : value :=
  match fields with
  | [] => VUndefined
  | (n, v) :: rest => if String.eqb n name then v else assoc name rest
  end.

(** [v.name] on a truthy [v]: a property of an object, [undefined] on
    anything else. *)
Definition get_prop (v : value) (name : string) : value :=
  match v with
  | VObj fields => assoc name fields
  | _ => VUndefined
  end.

(** [v[0]]: a [TypeError] on [null] and [undefined], whose message is
    returned on the left. *)
Definition index0 (v : value) : string + value :=
  match v with
  | VNull => inl "Cannot read properties of null (reading '0')"
  | VUndefined => inl "Cannot read properties of undefined (reading '0')"
  | VArr (x :: _) => inr x
  | VStr (String a _) => inr (VStr (String a EmptyString))
  | VObj fields => inr (assoc "0" fields)
  | _ => inr VUndefined
  end.

Definition message_body (message : string) : value :=
  VObj [("message", VStr message)].

Definition details_body (message : string) (details : value) : value :=
  VObj [("message", VStr message); ("details", details)].

(** ** GET /api/saves *)

(** The handler up to its [await]: the cache lookup.  [Some r] is the
    response of a hit, [None] means the query is sent. *)
Definition list_lookup (now : Z) (user_id : string) (c : gmap string entry)
  : option response * gmap string entry :=
  let '(cachedSaves, c') := getCache now (cacheKey user_id) c in
  if truthy cachedSaves
  then (Some (Response 200 cachedSaves), c')
  else (None, c').

(** The handler after its [await], on the cache as it is by then. *)
Definition list_settle (now : Z) (user_id : string)
    (query : settled sdk_result) (c : gmap string entry)
  : response * gmap string entry :=
  match query with
  | Resolved r =>
      if truthy (sdk_error r)
      then (Response 500 (details_body "Failed to retrieve save files list."
                            (get_prop (sdk_error r) "message")), c)
      else (Response 200 (sdk_data r),
            setCache now (cacheKey user_id) (sdk_data r) c)
  | Rejected message =>
      (Response 500 (details_body
                       "An unexpected error occurred while listing files."
                       (VStr message)), c)
  end.

(** One request served with no other request in between: the lookup at
    [t_get], then, on a miss, the query and its continuation at [t_set]. *)
Definition list_saves (t_get t_set : Z) (user_id : string)
    (query : settled sdk_result) (c : gmap string entry)
  : response * gmap string entry :=
  match list_lookup t_get user_id c with
  | (Some r, c') => (r, c')
  | (None, c') => list_settle t_set user_id query c'
  end.

(** The query failed: the promise rejected, or resolved with an [error]. *)
Definition query_failed (query : settled sdk_result) : bool :=
  match query with
  | Resolved r => truthy (sdk_error r)
  | Rejected _ => true
  end.

(** ** POST /api/saves/upload *)

(** [req.body.custom_metadata ? JSON.parse(...) : {}] *)
Inductive metadata_field : Type :=
  | NoMetadata
  | BadMetadata
  | GoodMetadata (v : value).

Record upload_request : Type := UploadRequest {
  up_user : string;
  up_file : option string;
  up_metadata : metadata_field
}.

(** What the caller of a handler sees: a response, or a promise rejected
    before anything was sent. *)
Inductive reply : Type :=
  | Sent (r : response)
  | Unhandled.

Definition upload_unexpected (message : string) : reply :=
  Sent (Response 500 (details_body
                        "An unexpected error occurred during file upload."
                        (VStr message))).

(** The handler touches the cache in its last synchronous stretch only, so
    [c] is the cache at that point.  [uploaded], [upserted] and [cleaned]
    are the storage upload, the metadata upsert and the storage clean-up. *)
Definition post_upload (req : upload_request)
    (uploaded upserted cleaned : settled sdk_result)
    (c : gmap string entry) : reply * gmap string entry :=
  match up_file req with
  | None => (Sent (Response 400 (message_body "No file uploaded.")), c)
  | Some _ =>
    match up_metadata req with
    | BadMetadata => (Unhandled, c)
    | _ =>
      match uploaded with
      | Rejected message => (upload_unexpected message, c)
      | Resolved u =>
        if truthy (sdk_error u)
        then (Sent (Response 500 (details_body
                      "Failed to upload file to storage."
                      (get_prop (sdk_error u) "message"))), c)
        else
          match upserted with
          | Rejected message => (upload_unexpected message, c)
          | Resolved m =>
            if truthy (sdk_error m)
            then
              match cleaned with
              | Rejected message => (upload_unexpected message, c)
              | Resolved _ =>
                  (Sent (Response 500 (details_body
                           "Failed to save file metadata."
                           (get_prop (sdk_error m) "message"))), c)
              end
            else
              let c' := invalidateCache (cacheKey (up_user req)) c in
              match index0 (sdk_data m) with
              | inl message => (upload_unexpected message, c')
              | inr row =>
                  (Sent (Response 201 (VObj
                     [("message", VStr "File uploaded successfully.");
                      ("data", row)])), c')
              end
          end
      end
    end
  end.

(** The upload went through: a file and well-formed metadata were sent,
    and both the storage upload and the metadata upsert resolved without
    an [error]. *)
Definition upload_succeeded (req : upload_request)
    (uploaded upserted : settled sdk_result) : bool :=
  bool_decide (is_Some (up_file req))
  && match up_metadata req with BadMetadata => false | _ => true end
  && negb (query_failed uploaded)
  && negb (query_failed upserted).

(** ** DELETE /api/saves/:fileName *)

Definition delete_unexpected (message : string) : response :=
  Response 500 (details_body
                  "An unexpected error occurred during file deletion."
                  (VStr message)).

(** [found] is the metadata lookup, [removed] the storage removal (its
    [error] is logged and ignored), [deleted] the metadata deletion. *)
Definition delete_save (user_id fileName : string)
    (found removed deleted : settled sdk_result)
    (c : gmap string entry) : response * gmap string entry :=
  match found with
  | Rejected message => (delete_unexpected message, c)
  | Resolved f =>
    if truthy (sdk_error f) || negb (truthy (sdk_data f))
    then (Response 404 (message_body
            "Save file not found or access denied for deletion."), c)
    else
      match removed with
      | Rejected message => (delete_unexpected message, c)
      | Resolved _ =>
        match deleted with
        | Rejected message => (delete_unexpected message, c)
        | Resolved d =>
          if truthy (sdk_error d)
          then (Response 500 (details_body "Failed to delete file metadata."
                                (get_prop (sdk_error d) "message")), c)
          else
            (Response 200 (message_body
               ("Save file '" +:+ fileName +:+ "' deleted successfully.")),
             invalidateCache (cacheKey user_id) c)
        end
      end
  end.

(** The deletion went through: the file was found, the storage removal
    settled without throwing, and the metadata row was deleted. *)
Definition delete_succeeded (found removed deleted : settled sdk_result)
  : bool :=
  match found, removed with
  | Resolved f, Resolved _ =>
      negb (truthy (sdk_error f)) && truthy (sdk_data f)
      && negb (query_failed deleted)
  | _, _ => false
  end.

(** ** Reading a sequence of calls *)

(** The entry a call leaves under its own key, from the one it found. *)
Definition own_entry (now : Z) (o : op) (found : option entry)
  : option entry :=
  match o with
  | OpGet _ =>
      match found with
      | Some e => if now - timestamp e <? CACHE_TTL_MS then Some e else None
      | None => None
      end
  | OpSet _ d => Some (Entry d now)
  | OpInvalidate _ => None
  end.

(** The keys written by the [setCache] calls of a sequence. *)
Fixpoint written_keys (calls : list (Z * op)) : gset string :=
  match calls with
  | [] => ∅
  | (_, OpSet key _) :: rest => {[key]} ∪ written_keys rest
  | _ :: rest => written_keys rest
  end.

(** The call is a [setCache] on [k]. *)
Definition writes_key (k : string) (o : op) : bool :=
  match o with
  | OpSet key _ => bool_decide (key = k)
  | _ => false
  end.

(** [k] has nothing to serve: no entry, or an entry holding [null]. *)
Definition reads_null (k : string) (c : gmap string entry) : Prop :=
  match c !! k with
  | Some e => data e = VNull
  | None => True
  end.

(** ** The handlers as programs over the SDK *)

(** [String(v)], as a template literal applies it. *)
Fixpoint to_string (v : value) : string :=
  match v with
  | VUndefined => "undefined"
  | VNull => "null"
  | VBool b => if b then "true" else "false"
  | VNum n => pretty n
  | VStr s => s
  | VArr items =>
      (fix join (l : list value) : string :=
         match l with
         | [] => ""
         | x :: rest =>
             let sx := match x with
                       | VUndefined | VNull => ""
                       | _ => to_string x
                       end in
             match rest with
             | [] => sx
             | _ :: _ => sx +:+ "," +:+ join rest
             end
         end) items
  | VObj _ => "[object Object]"
  end.

(** The calls the handlers make on the Supabase client: the storage
    bucket calls, and the chained table queries with their [eq] filters,
    their [order] (column, ascending) and [single()].  The upsert is the
    one followed by [select()], which returns the rows written. *)
Inductive sdk_call : Type :=
  | StorageUpload (bucket path : string) (buffer : list Byte.byte)
      (contentType : string) (upsert : bool)
  | StorageRemove (bucket : string) (paths : list value)
  | StorageDownload (bucket : string) (path : value)
  | TableUpsert (table : string) (row : value) (onConflict : string)
  | TableSelect (table columns : string) (eqs : list (string * value))
      (order : option (string * bool)) (single : bool)
  | TableDelete (table : string) (eqs : list (string * value)).

(** An [async] handler: it returns, or awaits a call and goes on with the
    way the call settled. *)
Inductive prog (R : Type) : Type :=
  | Ret (r : R)
  | Await (call : sdk_call) (k : settled sdk_result → prog R).
Arguments Ret {R} r.
Arguments Await {R} call k.

(** Running a handler against a backend: its result, and the calls it
    made, in order. *)
Fixpoint run_prog {R : Type} (backend : sdk_call → settled sdk_result)
    (p : prog R) : R * list sdk_call :=
  match p with
  | Ret r => (r, [])
  | Await call k =>
      let '(r, calls) := run_prog backend (k (backend call)) in
      (r, call :: calls)
  end.

(** What the upload handler reads of [req.file] and [req.body] besides the
    file name and the metadata text. *)
Record upload_details : Type := UploadDetails {
  up_size : Z;
  up_mimetype : string;
  up_buffer : list Byte.byte;
  up_version : value
}.

(** [`${user.id}/${Date.now()}_${fileName}`] *)
Definition filePath (user_id : string) (now : Z) (fileName : string)
  : string :=
  user_id +:+ "/" +:+ pretty now +:+ "_" +:+ fileName.

(** The row of the metadata upsert. *)
Definition upload_row (req : upload_request) (det : upload_details)
    (now : Z) (fileName : string) : value :=
  VObj [("user_id", VStr (up_user req));
        ("file_name", VStr fileName);
        ("storage_path", VStr (filePath (up_user req) now fileName));
        ("size_bytes", VNum (up_size det));
        ("version", if truthy (up_version det) then up_version det
                    else VStr "1.0");
        ("custom_metadata", match up_metadata req with
                            | GoodMetadata v => v
                            | _ => VObj []
                            end)].

(** POST /upload, with [now] the reading of the clock that names the
    stored object. *)
Definition upload_prog (req : upload_request) (det : upload_details)
    (now : Z) (c : gmap string entry) : prog (reply * gmap string entry) :=
  match up_file req with
  | None => Ret (Sent (Response 400 (message_body "No file uploaded.")), c)
  | Some fileName =>
    match up_metadata req with
    | BadMetadata => Ret (Unhandled, c)
    | _ =>
      Await (StorageUpload "save-files" (filePath (up_user req) now fileName)
               (up_buffer det) (up_mimetype det) true)
        (λ uploaded,
          match uploaded with
          | Rejected message => Ret (upload_unexpected message, c)
          | Resolved u =>
            if truthy (sdk_error u)
            then Ret (Sent (Response 500 (details_body
                         "Failed to upload file to storage."
                         (get_prop (sdk_error u) "message"))), c)
            else
              Await (TableUpsert "save_metadata"
                       (upload_row req det now fileName) "user_id,file_name")
                (λ upserted,
                  match upserted with
                  | Rejected message => Ret (upload_unexpected message, c)
                  | Resolved m =>
                    if truthy (sdk_error m)
                    then
                      Await (StorageRemove "save-files"
                               [VStr (filePath (up_user req) now fileName)])
                        (λ cleaned,
                          match cleaned with
                          | Rejected message =>
                              Ret (upload_unexpected message, c)
                          | Resolved _ =>
                              Ret (Sent (Response 500 (details_body
                                     "Failed to save file metadata."
                                     (get_prop (sdk_error m) "message"))), c)
                          end)
                    else
                      let c' := invalidateCache (cacheKey (up_user req)) c in
                      match index0 (sdk_data m) with
                      | inl message => Ret (upload_unexpected message, c')
                      | inr row =>
                          Ret (Sent (Response 201 (VObj
                             [("message", VStr "File uploaded successfully.");
                              ("data", row)])), c')
                      end
                  end)
          end)
    end
  end.

(** The listing query of GET /. *)
Definition list_query (user_id : string) : sdk_call :=
  TableSelect "save_metadata"
    "id, file_name, size_bytes, version, custom_metadata, updated_at"
    [("user_id", VStr user_id)] (Some ("updated_at", false)) false.

(** GET /, served with no other request in between. *)
Definition list_prog (t_get t_set : Z) (user_id : string)
    (c : gmap string entry) : prog (response * gmap string entry) :=
  match list_lookup t_get user_id c with
  | (Some r, c') => Ret (r, c')
  | (None, c') =>
      Await (list_query user_id)
        (λ query, Ret (list_settle t_set user_id query c'))
  end.

(** DELETE /:fileName *)
Definition delete_prog (user_id fileName : string) (c : gmap string entry)
  : prog (response * gmap string entry) :=
  Await (TableSelect "save_metadata" "id, storage_path"
           [("user_id", VStr user_id); ("file_name", VStr fileName)]
           None true)
    (λ found,
      match found with
      | Rejected message => Ret (delete_unexpected message, c)
      | Resolved f =>
        if truthy (sdk_error f) || negb (truthy (sdk_data f))
        then Ret (Response 404 (message_body
                    "Save file not found or access denied for deletion."), c)
        else
          Await (StorageRemove "save-files"
                   [get_prop (sdk_data f) "storage_path"])
            (λ removed,
              match removed with
              | Rejected message => Ret (delete_unexpected message, c)
              | Resolved _ =>
                Await (TableDelete "save_metadata"
                         [("id", get_prop (sdk_data f) "id")])
                  (λ deleted,
                    match deleted with
                    | Rejected message => Ret (delete_unexpected message, c)
                    | Resolved d =>
                      if truthy (sdk_error d)
                      then Ret (Response 500 (details_body
                                  "Failed to delete file metadata."
                                  (get_prop (sdk_error d) "message")), c)
                      else
                        Ret (Response 200 (message_body
                               ("Save file '" +:+ fileName
                                +:+ "' deleted successfully.")),
                             invalidateCache (cacheKey user_id) c)
                    end)
              end)
      end).

(** ** GET /api/saves/download/:fileName *)

(** What a download response carries: a JSON body, or the file. *)
Inductive payload : Type :=
  | Json (v : value)
  | File (bytes : list Byte.byte).

(** [dl_headers] are the [res.setHeader] calls made before the response
    went out, in order. *)
Record download_response : Type := DownloadResponse {
  dl_status : Z;
  dl_headers : list (string * string);
  dl_payload : payload
}.

(** The one-character string holding a double quote. *)
Definition dquote : string := String (Ascii.ascii_of_nat 34) EmptyString.

Definition download_headers (file_name : value) : list (string * string) :=
  [("Content-Disposition",
    "attachment; filename=" +:+ dquote +:+ to_string file_name +:+ dquote);
   ("Content-Type", "application/octet-stream")].

Definition download_unexpected (headers : list (string * string))
    (message : string) : download_response :=
  DownloadResponse 500 headers
    (Json (details_body "An unexpected error occurred during file download."
             (VStr message))).

(** Node's check of one code unit of a header value: a tab, or anything
    from the space up except DEL. *)
Definition header_char_ok (a : Ascii.ascii) : bool :=
  let n := Z.of_nat (Ascii.nat_of_ascii a) in
  (n =? 9) || ((32 <=? n) && negb (n =? 127)).

(** Node's check of a header value whose code units are all below 256. *)
Fixpoint header_value_ok (v : string) : bool :=
  match v with
  | EmptyString => true
  | String a rest => header_char_ok a && header_value_ok rest
  end.

(** The message of the error [res.setHeader] throws on a value that fails
    the check. *)
Definition invalid_header_message (name : string) : string :=
  "Invalid character in header content [" +:+ dquote +:+ name +:+ dquote
  +:+ "]".

(** [`attachment; filename="${meta.file_name}"`] *)
Definition disposition (file_name : value) : string :=
  "attachment; filename=" +:+ dquote +:+ to_string file_name +:+ dquote.

(** The download handler.  [valid_header name value] is the check
    [res.setHeader(name, value)] makes, throwing when it fails.
    [arrayBuffer] is what [downloadData.arrayBuffer()] does on a [data]
    that is not [null] or [undefined]: it throws at once with a message
    (left), or returns a promise that settles (right). *)
Definition download_prog (valid_header : string → string → bool)
    (user_id fileName : string)
    (arrayBuffer : string + settled (list Byte.byte))
  : prog download_response :=
  Await (TableSelect "save_metadata" "storage_path, file_name"
           [("user_id", VStr user_id); ("file_name", VStr fileName)]
           None true)
    (λ found,
      match found with
      | Rejected message => Ret (download_unexpected [] message)
      | Resolved f =>
        if truthy (sdk_error f) || negb (truthy (sdk_data f))
        then Ret (DownloadResponse 404 []
                    (Json (message_body
                             "Save file not found or access denied.")))
        else
          Await (StorageDownload "save-files"
                   (get_prop (sdk_data f) "storage_path"))
            (λ downloaded,
              match downloaded with
              | Rejected message => Ret (download_unexpected [] message)
              | Resolved d =>
                if truthy (sdk_error d)
                then Ret (DownloadResponse 500 []
                            (Json (details_body
                                     "Failed to download file from storage."
                                     (get_prop (sdk_error d) "message"))))
                else
                  let file_name := get_prop (sdk_data f) "file_name" in
                  if negb (valid_header "Content-Disposition"
                             (disposition file_name))
                  then Ret (download_unexpected []
                              (invalid_header_message "Content-Disposition"))
                  else
                  if negb (valid_header "Content-Type"
                             "application/octet-stream")
                  then Ret (download_unexpected
                              [("Content-Disposition", disposition file_name)]
                              (invalid_header_message "Content-Type"))
                  else
                  let headers := download_headers file_name in
                  match sdk_data d with
                  | VNull =>
                      Ret (download_unexpected headers
                        "Cannot read properties of null (reading 'arrayBuffer')")
                  | VUndefined =>
                      Ret (download_unexpected headers
                        "Cannot read properties of undefined (reading 'arrayBuffer')")
                  | _ =>
                    match arrayBuffer with
                    | inl message =>
                        Ret (download_unexpected headers message)
                    | inr (Resolved bytes) =>
                        Ret (DownloadResponse 200 headers (File bytes))
                    | inr (Rejected _) =>
                        Ret (DownloadResponse 500 headers
                               (Json (message_body
                                  "Failed to process file for download.")))
                    end
                  end
              end)
      end).

(** ** The calls of each handler, by name *)

Definition upload_call (req : upload_request) (det : upload_details)
    (now : Z) (fileName : string) : sdk_call :=
  StorageUpload "save-files" (filePath (up_user req) now fileName)
    (up_buffer det) (up_mimetype det) true.

Definition upsert_call (req : upload_request) (det : upload_details)
    (now : Z) (fileName : string) : sdk_call :=
  TableUpsert "save_metadata" (upload_row req det now fileName)
    "user_id,file_name".

Definition cleanup_call (req : upload_request) (now : Z)
    (fileName : string) : sdk_call :=
  StorageRemove "save-files" [VStr (filePath (up_user req) now fileName)].

(** The ownership lookup of DELETE and of the download. *)
Definition owner_query (columns user_id fileName : string) : sdk_call :=
  TableSelect "save_metadata" columns
    [("user_id", VStr user_id); ("file_name", VStr fileName)] None true.

Definition remove_call (row : value) : sdk_call :=
  StorageRemove "save-files" [get_prop row "storage_path"].

Definition delete_call (row : value) : sdk_call :=
  TableDelete "save_metadata" [("id", get_prop row "id")].

Definition download_call (row : value) : sdk_call :=
  StorageDownload "save-files" (get_prop row "storage_path").

(** The lookup resolved with a row and no [error]:
    [!(metaError || !meta)]. *)
Definition row_found (found : settled sdk_result) : bool :=
  match found with
  | Resolved f => negb (truthy (sdk_error f) || negb (truthy (sdk_data f)))
  | Rejected _ => false
  end.

(** The row a lookup resolved with. *)
Definition found_row (found : settled sdk_result) : value :=
  match found with
  | Resolved f => sdk_data f
  | Rejected _ => VUndefined
  end.

(** The request carries a file and metadata that parse. *)
Definition upload_well_formed (req : upload_request) : bool :=
  bool_decide (is_Some (up_file req))
  && match up_metadata req with BadMetadata => false | _ => true end.

(** [v] is [null] or [undefined]: reading a property of it throws. *)
Definition nullish (v : value) : bool :=
  match v with
  | VUndefined | VNull => true
  | _ => false
  end.

(** ** Basic facts about the three operations *)

Section cache_facts.
Context (c : gmap string entry) (k : string).

Lemma getCache_hit now e :
  c !! k = Some e → now - timestamp e < CACHE_TTL_MS →
  getCache now k c = (data e, c).
Proof.
  intros Hk Hfresh. unfold getCache. rewrite Hk.
  by rewrite (proj2 (Z.ltb_lt _ _) Hfresh).
Qed.

Lemma getCache_stale now e :
  c !! k = Some e → CACHE_TTL_MS ≤ now - timestamp e →
  getCache now k c = (VNull, delete k c).
Proof.
  intros Hk Hold. unfold getCache. rewrite Hk.
  by rewrite (proj2 (Z.ltb_ge _ _) Hold).
Qed.

Lemma getCache_miss now : c !! k = None → getCache now k c = (VNull, c).
Proof. intros Hk. unfold getCache. by rewrite Hk. Qed.

Lemma lookup_getCache_ne now k' :
  k ≠ k' → (getCache now k c).2 !! k' = c !! k'.
Proof.
  intros Hne. unfold getCache.
  destruct (c !! k) as [e|]; [|done].
  destruct (_ <? _); [done|]. by apply lookup_delete_ne.
Qed.

Lemma lookup_setCache_eq now v :
  setCache now k v c !! k = Some (Entry v now).
Proof. apply lookup_insert_eq. Qed.

Lemma lookup_setCache_ne now v k' :
  k ≠ k' → setCache now k v c !! k' = c !! k'.
Proof. intros Hne. by apply lookup_insert_ne. Qed.

Lemma invalidateCache_delete : invalidateCache k c = delete k c.
Proof.
  unfold invalidateCache. destruct (c !! k) eqn:Hk; [done|].
  symmetry. by apply delete_id.
Qed.

Lemma lookup_invalidateCache_eq : invalidateCache k c !! k = None.
Proof. rewrite invalidateCache_delete. apply lookup_delete_eq. Qed.

Lemma lookup_invalidateCache_ne k' :
  k ≠ k' → invalidateCache k c !! k' = c !! k'.
Proof. intros Hne. rewrite invalidateCache_delete. by apply lookup_delete_ne. Qed.
End cache_facts.

Lemma lookup_apply_op_ne now o c k :
  op_key o ≠ k → apply_op now o c !! k = c !! k.
Proof.
  destruct o as [key|key d|key]; simpl; intros Hne.
  - by apply lookup_getCache_ne.
  - by apply lookup_setCache_ne.
  - by apply lookup_invalidateCache_ne.
Qed.

(** Calls on other keys leave the entry of [k] as it is. *)
Lemma lookup_run_others calls : ∀ c k,
  Forall (λ call, op_key call.2 ≠ k) calls → run calls c !! k = c !! k.
Proof.
  induction calls as [|[now o] rest IH]; intros c k Hall; [done|].
  apply Forall_cons in Hall as [Hhd Htl]. simpl in *.
  rewrite IH; [|done]. by apply lookup_apply_op_ne.
Qed.

(** Fresh reads of [k] leave the whole cache as it is. *)
Lemma run_fresh_reads times : ∀ c k e,
  c !! k = Some e →
  Forall (λ now, now - timestamp e < CACHE_TTL_MS) times →
  run (reads k times) c = c.
Proof.
  induction times as [|now rest IH]; intros c k e Hk Hall; [done|].
  apply Forall_cons in Hall as [Hhd Htl]. simpl.
  rewrite (getCache_hit c k now e Hk Hhd). simpl. by eapply IH.
Qed.

(** A read never creates an entry. *)
Lemma lookup_getCache_Some now k c e :
  (getCache now k c).2 !! k = Some e → c !! k = Some e.
Proof.
  unfold getCache. destruct (c !! k) as [e'|] eqn:Hk; simpl.
  - destruct (_ <? _); simpl; intros He.
    + by rewrite Hk in He.
    + by rewrite lookup_delete_eq in He.
  - intros He. by rewrite Hk in He.
Qed.

(** Right after an invalidation the key reads as absent, at any time. *)
Lemma getCache_invalidateCache now k c :
  getCache now k (invalidateCache k c) = (VNull, invalidateCache k c).
Proof. apply getCache_miss, lookup_invalidateCache_eq. Qed.

(** ** The operations on concrete inputs *)

Example scenario_read_at_100000 :
  getCache 100000 "user:42:saves"
    (setCache 0 "user:42:saves" (VArr [VStr "fileA"]) ∅)
  = (VArr [VStr "fileA"],
     setCache 0 "user:42:saves" (VArr [VStr "fileA"]) ∅).
Proof. reflexivity. Qed.

Example scenario_read_at_300000 :
  getCache 300000 "user:42:saves"
    (setCache 0 "user:42:saves" (VArr [VStr "fileA"]) ∅)
  = (VNull, ∅).
Proof. reflexivity. Qed.

Example scenario_rewrite_at_300001 :
  getCache 300001 "user:42:saves"
    (setCache 300001 "user:42:saves" (VArr [VStr "fileA"; VStr "fileB"])
       (getCache 300000 "user:42:saves"
          (setCache 0 "user:42:saves" (VArr [VStr "fileA"]) ∅)).2)
  = (VArr [VStr "fileA"; VStr "fileB"],
     {["user:42:saves" := Entry (VArr [VStr "fileA"; VStr "fileB"]) 300001]}).
Proof. reflexivity. Qed.

(** A clock that stepped back makes the elapsed time negative: the entry
    is served. *)
Example read_before_the_write :
  (getCache 5 "user:42:saves"
     (setCache 10 "user:42:saves" (VNum 1) ∅)).1 = VNum 1.
Proof. reflexivity. Qed.

(** A stored [null] reads like a miss, but the entry stays. *)
Example stored_null_reads_as_null :
  getCache 1 "user:42:saves" (setCache 0 "user:42:saves" VNull ∅)
  = (VNull, {["user:42:saves" := Entry VNull 0]}).
Proof. reflexivity. Qed.

Example cacheKey_42 : cacheKey "42" = "user:42:saves".
Proof. reflexivity. Qed.

(** An upload whose metadata upsert fails answers 500 and keeps the cached
    listing. *)
Example upload_metadata_error_keeps_cache :
  post_upload (UploadRequest "42" (Some "slot1.sav") NoMetadata)
    (Resolved (SdkResult (VObj []) VNull))
    (Resolved (SdkResult VNull (VObj [("message", VStr "conflict")])))
    (Resolved (SdkResult VNull VNull))
    {["user:42:saves" := Entry (VArr []) 0]}
  = (Sent (Response 500 (details_body "Failed to save file metadata."
                           (VStr "conflict"))),
     {["user:42:saves" := Entry (VArr []) 0]}).
Proof. reflexivity. Qed.

(** A deletion goes on after a storage error and invalidates the key. *)
Example delete_after_storage_error :
  delete_save "42" "slot1.sav"
    (Resolved (SdkResult (VObj [("id", VNum 1)]) VNull))
    (Resolved (SdkResult VNull (VObj [("message", VStr "gone")])))
    (Resolved (SdkResult VNull VNull))
    {["user:42:saves" := Entry (VArr []) 0]}
  = (Response 200 (message_body "Save file 'slot1.sav' deleted successfully."),
     ∅).
Proof. reflexivity. Qed.

(** C1: after [setCache(k, v)] at time [t], [getCache(k)] at exactly
    [t + CACHE_TTL_MS] returns [null]: an elapsed time equal to the TTL is
    expired, the comparison [<] being strict.  The read also removes the
    entry. *)
Theorem getCache_at_ttl_boundary_absent (k : string) (v : value) (t : Z)
    (c : gmap string entry) :
  (t + CACHE_TTL_MS - t <? CACHE_TTL_MS) = false ∧
  getCache (t + CACHE_TTL_MS) k (setCache t k v c) = (VNull, delete k c).
Proof.
  assert (Hb : (t + CACHE_TTL_MS - t <? CACHE_TTL_MS) = false)
    by (apply Z.ltb_ge; lia).
  split; [exact Hb|].
  unfold getCache, setCache.
  rewrite lookup_insert_eq. simpl. rewrite Hb.
  by rewrite delete_insert_eq.
Qed.

(** C2: after [setCache(k, v)] at time [t], with only calls on other keys
    in between, [getCache(k)] at a time [t'] with [t <= t'] and
    [t' - t < CACHE_TTL_MS] returns exactly [v], and leaves the cache as
    it found it. *)
Theorem getCache_fresh_returns_stored (k : string) (v : value) (t t' : Z)
    (calls : list (Z * op)) (c : gmap string entry) :
  Forall (λ call, op_key call.2 ≠ k) calls →
  t ≤ t' → t' - t < CACHE_TTL_MS →
  getCache t' k (run calls (setCache t k v c))
  = (v, run calls (setCache t k v c)).
Proof.
  intros Hothers _ Hfresh.
  apply (getCache_hit _ k t' (Entry v t)); [|done].
  rewrite lookup_run_others; [|done]. apply lookup_setCache_eq.
Qed.

Lemma getCache_fresh_returns_stored_witness :
  getCache 100000 "user:42:saves"
    (run [(50000, OpSet "user:7:saves" (VArr []));
          (60000, OpInvalidate "user:7:saves")]
       (setCache 0 "user:42:saves" (VArr [VStr "fileA"]) ∅))
  = (VArr [VStr "fileA"],
     run [(50000, OpSet "user:7:saves" (VArr []));
          (60000, OpInvalidate "user:7:saves")]
       (setCache 0 "user:42:saves" (VArr [VStr "fileA"]) ∅)).
Proof.
  apply getCache_fresh_returns_stored.
  - repeat constructor; simpl; discriminate.
  - lia.
  - unfold CACHE_TTL_MS. lia.
Defined.

(** C5: the absent path of [getCache] is lazy clean-up.  An entry that is
    present but expired makes the read return [null] and delete that entry,
    and no other; a key with no entry makes the read return [null] and
    leave the whole cache unchanged. *)
Theorem getCache_lazy_cleanup (k : string) (now : Z) (c : gmap string entry) :
  (∀ e, c !! k = Some e → CACHE_TTL_MS ≤ now - timestamp e →
     getCache now k c = (VNull, delete k c) ∧
     (getCache now k c).2 !! k = None ∧
     ∀ k', k ≠ k' → (getCache now k c).2 !! k' = c !! k') ∧
  (c !! k = None → getCache now k c = (VNull, c)).
Proof.
  split.
  - intros e Hk Hold. rewrite (getCache_stale c k now e Hk Hold). simpl.
    split; [done|]. split; [apply lookup_delete_eq|].
    intros k' Hne. by apply lookup_delete_ne.
  - apply getCache_miss.
Qed.

Lemma getCache_lazy_cleanup_witness :
  getCache 300000 "user:42:saves" {["user:42:saves" := Entry (VArr []) 0]}
  = (VNull, delete "user:42:saves" {["user:42:saves" := Entry (VArr []) 0]})
  ∧ getCache 5 "user:42:saves" ∅ = (VNull, ∅).
Proof.
  split.
  - apply (proj1 (getCache_lazy_cleanup "user:42:saves" 300000
                    {["user:42:saves" := Entry (VArr []) 0]})
             (Entry (VArr []) 0)).
    + apply lookup_singleton_eq.
    + unfold CACHE_TTL_MS. simpl. lia.
  - apply (proj2 (getCache_lazy_cleanup "user:42:saves" 5 ∅)).
    apply lookup_empty.
Defined.

(** C6: [setCache] replaces whatever entry the key had, whatever its age:
    two writes in a row leave the cache the second write alone would
    leave, the entry holds [v2] stamped with the time of the second write,
    and a read before that entry expires returns [v2]. *)
Theorem setCache_overwrites (k : string) (v1 v2 : value) (t1 t2 : Z)
    (c : gmap string entry) :
  setCache t2 k v2 (setCache t1 k v1 c) = setCache t2 k v2 c ∧
  setCache t2 k v2 (setCache t1 k v1 c) !! k = Some (Entry v2 t2) ∧
  ∀ now, now - t2 < CACHE_TTL_MS →
    getCache now k (setCache t2 k v2 (setCache t1 k v1 c))
    = (v2, setCache t2 k v2 c).
Proof.
  assert (Hset : setCache t2 k v2 (setCache t1 k v1 c) = setCache t2 k v2 c)
    by apply insert_insert_eq.
  rewrite Hset. split; [done|]. split; [apply lookup_setCache_eq|].
  intros now Hfresh.
  apply (getCache_hit _ k now (Entry v2 t2)); [apply lookup_setCache_eq|done].
Qed.

Lemma setCache_overwrites_witness :
  getCache 300001 "user:42:saves"
    (setCache 300001 "user:42:saves" (VArr [VStr "fileA"; VStr "fileB"])
       (setCache 0 "user:42:saves" (VArr [VStr "fileA"]) ∅))
  = (VArr [VStr "fileA"; VStr "fileB"],
     setCache 300001 "user:42:saves" (VArr [VStr "fileA"; VStr "fileB"]) ∅).
Proof.
  apply setCache_overwrites. unfold CACHE_TTL_MS. lia.
Defined.

(** C7: [invalidateCache(k)] leaves no entry for [k] and touches no other
    key; it changes nothing when [k] has no entry; and a second call in a
    row changes nothing more.  It is a total function: it cannot fail. *)
Theorem invalidateCache_idempotent (k : string) (c : gmap string entry) :
  invalidateCache k c !! k = None ∧
  (∀ k', k ≠ k' → invalidateCache k c !! k' = c !! k') ∧
  (c !! k = None → invalidateCache k c = c) ∧
  invalidateCache k (invalidateCache k c) = invalidateCache k c.
Proof.
  split; [apply lookup_invalidateCache_eq|].
  split; [intros k'; apply lookup_invalidateCache_ne|].
  split.
  - intros Hk. unfold invalidateCache. by rewrite Hk.
  - unfold invalidateCache at 1. by rewrite lookup_invalidateCache_eq.
Qed.

Lemma invalidateCache_idempotent_witness :
  invalidateCache "user:42:saves" ∅ = ∅ ∧
  invalidateCache "user:42:saves" {["user:7:saves" := Entry VNull 3]}
    !! "user:7:saves" = Some (Entry VNull 3).
Proof.
  split.
  - apply (invalidateCache_idempotent "user:42:saves" ∅). apply lookup_empty.
  - rewrite (proj1 (proj2 (invalidateCache_idempotent "user:42:saves"
                             {["user:7:saves" := Entry VNull 3]}))).
    + apply lookup_singleton_eq.
    + discriminate.
Defined.

(** C8: [setCache(k1, v1)] leaves the entry, or the absence, of every other
    key [k2] as it was, and so the result of [getCache(k2)]. *)
Theorem setCache_isolation (k1 k2 : string) (v1 : value) (t now : Z)
    (c : gmap string entry) :
  k1 ≠ k2 →
  setCache t k1 v1 c !! k2 = c !! k2 ∧
  (getCache now k2 (setCache t k1 v1 c)).1 = (getCache now k2 c).1.
Proof.
  intros Hne.
  assert (Hk : setCache t k1 v1 c !! k2 = c !! k2)
    by by apply lookup_setCache_ne.
  split; [done|]. unfold getCache. rewrite Hk.
  destruct (c !! k2) as [e|]; [|done]. by destruct (_ <? _).
Qed.

Lemma setCache_isolation_witness :
  setCache 10 "user:42:saves" (VArr []) {["user:7:saves" := Entry VNull 3]}
    !! "user:7:saves"
  = ({["user:7:saves" := Entry VNull 3]} : gmap string entry)
    !! "user:7:saves" ∧
  (getCache 20 "user:7:saves"
     (setCache 10 "user:42:saves" (VArr [])
        {["user:7:saves" := Entry VNull 3]})).1
  = (getCache 20 "user:7:saves" {["user:7:saves" := Entry VNull 3]}).1.
Proof.
  apply setCache_isolation. discriminate.
Defined.

(** C10: a read that hits leaves the cache, and so the entry and its
    [timestamp], exactly as they were.  Hence after [setCache(k, v)] at
    time [t], any number of fresh reads of [k] leave the cache as the write
    left it, and a later read at [t'] hits exactly when
    [t' - t < CACHE_TTL_MS]: the deadline is that of the write. *)
Theorem getCache_hit_keeps_entry (k : string) (c : gmap string entry) :
  (∀ now e, c !! k = Some e → now - timestamp e < CACHE_TTL_MS →
     getCache now k c = (data e, c)) ∧
  (∀ v t times t',
     Forall (λ now, now - t < CACHE_TTL_MS) times →
     run (reads k times) (setCache t k v c) = setCache t k v c ∧
     (getCache t' k (run (reads k times) (setCache t k v c))).1
     = if t' - t <? CACHE_TTL_MS then v else VNull).
Proof.
  split; [apply getCache_hit|].
  intros v t times t' Hfresh.
  assert (Hrun : run (reads k times) (setCache t k v c) = setCache t k v c).
  { apply (run_fresh_reads times _ k (Entry v t));
      [apply lookup_setCache_eq|done]. }
  rewrite Hrun. split; [done|].
  unfold getCache. rewrite lookup_setCache_eq. simpl.
  by destruct (_ <? _).
Qed.

Lemma getCache_hit_keeps_entry_witness :
  getCache 299999 "user:42:saves" {["user:42:saves" := Entry (VNum 7) 0]}
  = (VNum 7, {["user:42:saves" := Entry (VNum 7) 0]}) ∧
  (getCache 300000 "user:42:saves"
     (run (reads "user:42:saves" [100000; 200000; 299999])
        (setCache 0 "user:42:saves" (VNum 7) ∅))).1 = VNull.
Proof.
  split.
  - apply (proj1 (getCache_hit_keeps_entry "user:42:saves"
                    {["user:42:saves" := Entry (VNum 7) 0]})
             299999 (Entry (VNum 7) 0)).
    + apply lookup_singleton_eq.
    + unfold CACHE_TTL_MS. simpl. lia.
  - apply (proj2 (getCache_hit_keeps_entry "user:42:saves" ∅)
             (VNum 7) 0 [100000; 200000; 299999] 300000).
    unfold CACHE_TTL_MS. repeat constructor; lia.
Defined.

(** C9, as the code has it: the lifetime of an entry is the hard-coded
    constant [CACHE_TTL_MS = 300000] milliseconds, the same for every key
    and every entry.  The code's read is the spec's read with the TTL at
    300000: it returns the stored data exactly when less than 300000 ms
    have elapsed since the entry's [timestamp].  And 300000 is the only
    TTL the code realizes: for any other value the spec's read and the
    code's differ on some call. *)
Theorem cache_ttl_is_fixed_constant (now : Z) (k : string)
    (c : gmap string entry) :
  CACHE_TTL_MS = 300000 ∧
  getCache now k c = Spec.get 300000 now k c ∧
  (∀ e, c !! k = Some e →
     (getCache now k c).1
     = if now - timestamp e <? 300000 then data e else VNull) ∧
  (∀ ttl, (∀ now' k' c', getCache now' k' c' = Spec.get ttl now' k' c') →
          ttl = 300000).
Proof.
  split; [done|]. split; [|split].
  - unfold getCache, Spec.get. destruct (c !! k) as [e|]; [|done].
    change CACHE_TTL_MS with 300000.
    destruct (now - timestamp e <? 300000) eqn:Hlt.
    + by rewrite bool_decide_eq_true_2 by by apply Z.ltb_lt.
    + by rewrite bool_decide_eq_false_2 by (apply Z.ltb_ge in Hlt; lia).
  - intros e Hk. unfold getCache. rewrite Hk.
    change CACHE_TTL_MS with 300000. by destruct (_ <? _).
  - intros ttl Hsame.
    destruct (Z.lt_trichotomy ttl 300000) as [Hlt|[Heq|Hgt]]; [|done|].
    + specialize (Hsame ttl "k" {["k" := Entry (VArr []) 0]}).
      unfold getCache, Spec.get in Hsame.
      rewrite lookup_singleton_eq in Hsame. simpl in Hsame.
      change CACHE_TTL_MS with 300000 in Hsame.
      rewrite (proj2 (Z.ltb_lt (ttl - 0) 300000)) in Hsame by lia.
      rewrite bool_decide_eq_false_2 in Hsame by lia. discriminate Hsame.
    + specialize (Hsame 300000 "k" {["k" := Entry (VArr []) 0]}).
      unfold getCache, Spec.get in Hsame.
      rewrite lookup_singleton_eq in Hsame. simpl in Hsame.
      rewrite bool_decide_eq_true_2 in Hsame by lia. discriminate Hsame.
Qed.

Lemma cache_ttl_is_fixed_constant_witness :
  (getCache 299999 "user:42:saves"
     {["user:42:saves" := Entry (VStr "x") 0]}).1
  = (if 299999 - 0 <? 300000 then VStr "x" else VNull).
Proof.
  apply (proj1 (proj2 (proj2 (cache_ttl_is_fixed_constant 299999
                                "user:42:saves"
                                {["user:42:saves" := Entry (VStr "x") 0]})))
           (Entry (VStr "x") 0)).
  apply lookup_singleton_eq.
Defined.

(** C9, as the claim has it, fails.  In an environment that sets both
    Supabase settings and [ttlMs] to 1000 the module loads with an empty
    cache, and the option, were it recognized, would give entries a
    lifetime of 1000 ms.  An entry written at time 0 and read at time 1000
    is expired for the spec's cache under that option; the code serves
    it. *)
Lemma ttlMs_option_is_not_read :
  load_router (<["ttlMs" := "1000"]>
               (<["SUPABASE_ANON_KEY" := "anon-key"]>
                {["SUPABASE_URL" := "https://project.supabase.co"]}))
  = Some (RouterModule "https://project.supabase.co" "anon-key" ∅) ∧
  Spec.ttlMs (<["ttlMs" := "1000"]>
              (<["SUPABASE_ANON_KEY" := "anon-key"]>
               {["SUPABASE_URL" := "https://project.supabase.co"]}))
  = 1000 ∧
  Spec.get (Spec.ttlMs (<["ttlMs" := "1000"]>
                        (<["SUPABASE_ANON_KEY" := "anon-key"]>
                         {["SUPABASE_URL" := "https://project.supabase.co"]})))
    1000 "user:42:saves" (setCache 0 "user:42:saves" (VArr []) ∅)
  = (VNull, ∅) ∧
  getCache 1000 "user:42:saves" (setCache 0 "user:42:saves" (VArr []) ∅)
  = (VArr [], setCache 0 "user:42:saves" (VArr []) ∅) ∧
  getCache 1000 "user:42:saves" (setCache 0 "user:42:saves" (VArr []) ∅)
  ≠ Spec.get (Spec.ttlMs (<["ttlMs" := "1000"]>
                          (<["SUPABASE_ANON_KEY" := "anon-key"]>
                           {["SUPABASE_URL" := "https://project.supabase.co"]})))
      1000 "user:42:saves" (setCache 0 "user:42:saves" (VArr []) ∅).
Proof.
  assert (Hspec :
    Spec.get (Spec.ttlMs (<["ttlMs" := "1000"]>
                          (<["SUPABASE_ANON_KEY" := "anon-key"]>
                           {["SUPABASE_URL" := "https://project.supabase.co"]})))
      1000 "user:42:saves" (setCache 0 "user:42:saves" (VArr []) ∅)
    = (VNull, ∅)) by (vm_compute; reflexivity).
  split; [vm_compute; reflexivity|]. split; [vm_compute; reflexivity|].
  split; [exact Hspec|]. split; [reflexivity|].
  rewrite Hspec. discriminate.
Qed.

(** C3: in the listing read-through, a failed query (a rejection, or a
    result with an [error]) never reaches [setCache]: the continuation
    answers 500 and returns the cache it was given, so over the whole
    request the cache is the one the lookup left and the key holds no entry
    it did not hold before.  A successful empty listing is stored like any
    other value, answered with 200, and served from the cache afterwards. *)
Theorem list_failure_is_not_cached (user_id : string) (t_get t_set : Z)
    (query : settled sdk_result) (c : gmap string entry) :
  (query_failed query = true →
     (∀ c1, (list_settle t_set user_id query c1).2 = c1 ∧
            status (list_settle t_set user_id query c1).1 = 500) ∧
     ((list_lookup t_get user_id c).1 = None →
        status (list_saves t_get t_set user_id query c).1 = 500 ∧
        (list_saves t_get t_set user_id query c).2
        = (getCache t_get (cacheKey user_id) c).2 ∧
        ∀ e, (list_saves t_get t_set user_id query c).2
               !! cacheKey user_id = Some e →
             c !! cacheKey user_id = Some e)) ∧
  (∀ c1, list_settle t_set user_id (Resolved (SdkResult (VArr []) VNull)) c1
         = (Response 200 (VArr []),
            setCache t_set (cacheKey user_id) (VArr []) c1)) ∧
  (∀ c1 t', t' - t_set < CACHE_TTL_MS →
     list_lookup t' user_id (setCache t_set (cacheKey user_id) (VArr []) c1)
     = (Some (Response 200 (VArr [])),
        setCache t_set (cacheKey user_id) (VArr []) c1)).
Proof.
  split; [|split].
  - intros Hfail.
    assert (Hsettle : ∀ c1,
      (list_settle t_set user_id query c1).2 = c1 ∧
      status (list_settle t_set user_id query c1).1 = 500).
    { intros c1. destruct query as [r|message]; simpl in *; [|done].
      by rewrite Hfail. }
    split; [done|]. intros Hmiss.
    unfold list_saves. unfold list_lookup in *.
    destruct (getCache t_get (cacheKey user_id) c) as [cached c'] eqn:Hget.
    destruct (truthy cached); [done|]. simpl.
    destruct (Hsettle c') as [Hc' Hst].
    split; [done|]. split; [done|].
    intros e He. rewrite Hc' in He.
    apply (lookup_getCache_Some t_get). by rewrite Hget.
  - done.
  - intros c1 t' Hfresh. unfold list_lookup.
    by rewrite (getCache_hit _ _ t' (Entry (VArr []) t_set)
                  (lookup_setCache_eq _ _ _ _) Hfresh).
Qed.

Lemma list_failure_is_not_cached_witness :
  (status (list_saves 300000 300050 "42"
             (Resolved (SdkResult VNull (VObj [("message", VStr "timeout")])))
             {[cacheKey "42" := Entry (VArr [VStr "fileA"]) 0]}).1 = 500 ∧
   (list_saves 300000 300050 "42"
      (Resolved (SdkResult VNull (VObj [("message", VStr "timeout")])))
      {[cacheKey "42" := Entry (VArr [VStr "fileA"]) 0]}).2
   = (getCache 300000 (cacheKey "42")
        {[cacheKey "42" := Entry (VArr [VStr "fileA"]) 0]}).2 ∧
   ∀ e, (list_saves 300000 300050 "42"
           (Resolved (SdkResult VNull (VObj [("message", VStr "timeout")])))
           {[cacheKey "42" := Entry (VArr [VStr "fileA"]) 0]}).2
          !! cacheKey "42" = Some e →
        ({[cacheKey "42" := Entry (VArr [VStr "fileA"]) 0]}
           : gmap string entry) !! cacheKey "42" = Some e) ∧
  list_lookup 400000 "42" (setCache 300050 (cacheKey "42") (VArr []) ∅)
  = (Some (Response 200 (VArr [])),
     setCache 300050 (cacheKey "42") (VArr []) ∅).
Proof.
  split.
  - apply (proj2 (proj1 (list_failure_is_not_cached "42" 300000 300050
      (Resolved (SdkResult VNull (VObj [("message", VStr "timeout")])))
      {[cacheKey "42" := Entry (VArr [VStr "fileA"]) 0]}) eq_refl)).
    reflexivity.
  - apply (proj2 (proj2 (list_failure_is_not_cached "42" 0 300050
                           (Rejected "") ∅))).
    unfold CACHE_TTL_MS. lia.
Defined.

(** C4: an upload or a deletion that goes through invalidates the key
    [user:<id>:saves] of the requesting user, in the same synchronous
    stretch that sends the success response, and one that does not go
    through leaves the cache untouched.  A 201 (upload) or 200 (deletion)
    is only ever sent after the invalidation, and right after it the key
    reads as absent at any time. *)
Theorem mutation_invalidates_user_key (req : upload_request)
    (uploaded upserted cleaned : settled sdk_result)
    (user_id fileName : string) (found removed deleted : settled sdk_result)
    (c : gmap string entry) :
  (post_upload req uploaded upserted cleaned c).2
  = (if upload_succeeded req uploaded upserted
     then invalidateCache (cacheKey (up_user req)) c else c) ∧
  (∀ r, (post_upload req uploaded upserted cleaned c).1 = Sent r →
        status r = 201 → upload_succeeded req uploaded upserted = true) ∧
  (delete_save user_id fileName found removed deleted c).2
  = (if delete_succeeded found removed deleted
     then invalidateCache (cacheKey user_id) c else c) ∧
  (status (delete_save user_id fileName found removed deleted c).1 = 200 →
   delete_succeeded found removed deleted = true) ∧
  (∀ user now,
     getCache now (cacheKey user) (invalidateCache (cacheKey user) c)
     = (VNull, invalidateCache (cacheKey user) c)).
Proof.
  split; [|split; [|split; [|split]]].
  - unfold post_upload, upload_succeeded, query_failed.
    destruct req as [user [name|] [| |meta]]; simpl; try done;
      destruct uploaded as [u|]; simpl; try done;
      destruct (truthy (sdk_error u)); simpl; try done;
      destruct upserted as [m|]; simpl; try done;
      destruct (truthy (sdk_error m)); simpl;
      try (by destruct cleaned); by destruct (index0 (sdk_data m)).
  - intros r. unfold post_upload, upload_succeeded, query_failed.
    destruct req as [user [name|] [| |meta]]; simpl;
      try (intros [= <-]; done); try done;
      destruct uploaded as [u|]; simpl; try (intros [= <-]; done);
      destruct (truthy (sdk_error u)); simpl; try (intros [= <-]; done);
      destruct upserted as [m|]; simpl; try (intros [= <-]; done);
      destruct (truthy (sdk_error m)); simpl;
      try (destruct cleaned; intros [= <-]; done); done.
  - unfold delete_save, delete_succeeded, query_failed.
    destruct found as [f|]; [|done].
    destruct (truthy (sdk_error f)), (truthy (sdk_data f)); simpl;
      try (by destruct removed);
      destruct removed; [|done]; destruct deleted as [d|]; [|done];
      by destruct (truthy (sdk_error d)).
  - unfold delete_save, delete_succeeded, query_failed.
    destruct found as [f|]; [|done].
    destruct (truthy (sdk_error f)), (truthy (sdk_data f)); simpl;
      try done;
      destruct removed; [|done]; destruct deleted as [d|]; [|done];
      by destruct (truthy (sdk_error d)).
  - intros user now. apply getCache_invalidateCache.
Qed.

Lemma mutation_invalidates_user_key_witness :
  upload_succeeded (UploadRequest "42" (Some "slot1.sav") NoMetadata)
    (Resolved (SdkResult (VObj []) VNull))
    (Resolved (SdkResult (VArr [VObj [("id", VNum 1)]]) VNull)) = true ∧
  delete_succeeded (Resolved (SdkResult (VObj [("id", VNum 1)]) VNull))
    (Resolved (SdkResult VNull VNull))
    (Resolved (SdkResult VNull VNull)) = true.
Proof.
  pose proof (mutation_invalidates_user_key
    (UploadRequest "42" (Some "slot1.sav") NoMetadata)
    (Resolved (SdkResult (VObj []) VNull))
    (Resolved (SdkResult (VArr [VObj [("id", VNum 1)]]) VNull))
    (Rejected "")
    "42" "slot1.sav"
    (Resolved (SdkResult (VObj [("id", VNum 1)]) VNull))
    (Resolved (SdkResult VNull VNull))
    (Resolved (SdkResult VNull VNull))
    {[cacheKey "42" := Entry (VArr []) 0]}) as (_ & Hup & _ & Hdel & _).
  split.
  - apply (Hup (Response 201 (VObj
       [("message", VStr "File uploaded successfully.");
        ("data", VObj [("id", VNum 1)])]))); reflexivity.
  - apply Hdel. reflexivity.
Defined.

(** * Further properties of the cache *)

Lemma lookup_apply_op now o c i :
  apply_op now o c !! i
  = if decide (i = op_key o) then own_entry now o (c !! op_key o)
    else c !! i.
Proof.
  destruct (decide (i = op_key o)) as [->|Hne];
    [|by apply lookup_apply_op_ne].
  destruct o as [key|key d|key]; simpl.
  - unfold getCache. destruct (c !! key) as [e|] eqn:Hk; [|done].
    destruct (_ <? _); simpl; [done|apply lookup_delete_eq].
  - apply lookup_setCache_eq.
  - apply lookup_invalidateCache_eq.
Qed.

(** X1: [getCache] never serves stale or foreign data.  Whenever it
    returns something other than [null], the key holds an entry with
    exactly that data, written less than [CACHE_TTL_MS] ago, and the cache
    is left as it was. *)
Theorem getCache_serves_only_fresh (now : Z) (k : string)
    (c : gmap string entry) :
  (getCache now k c).1 ≠ VNull →
  ∃ e, c !! k = Some e ∧ data e = (getCache now k c).1 ∧
       now - timestamp e < CACHE_TTL_MS ∧ (getCache now k c).2 = c.
Proof.
  unfold getCache. destruct (c !! k) as [e|] eqn:Hk; [|done].
  destruct (now - timestamp e <? CACHE_TTL_MS) eqn:Hlt; [|done].
  intros _. exists e. repeat split. by apply Z.ltb_lt.
Qed.

Lemma getCache_serves_only_fresh_witness :
  ∃ e, ({["user:42:saves" := Entry (VNum 7) 0]} : gmap string entry)
         !! "user:42:saves" = Some e ∧
       data e = (getCache 299999 "user:42:saves"
                   {["user:42:saves" := Entry (VNum 7) 0]}).1 ∧
       299999 - timestamp e < CACHE_TTL_MS ∧
       (getCache 299999 "user:42:saves"
          {["user:42:saves" := Entry (VNum 7) 0]}).2
       = {["user:42:saves" := Entry (VNum 7) 0]}.
Proof.
  apply (getCache_serves_only_fresh 299999 "user:42:saves"
           {["user:42:saves" := Entry (VNum 7) 0]}).
  discriminate.
Defined.

Lemma getCache_subseteq now k c : (getCache now k c).2 ⊆ c.
Proof.
  unfold getCache. destruct (c !! k) as [e|]; [|done].
  destruct (_ <? _); simpl; [done|apply delete_subseteq].
Qed.

(** X2: a read never adds to the cache and never touches another key:
    the cache it leaves is contained in the one it found, and the two
    agree once the key read is set aside. *)
Theorem getCache_only_shrinks (now : Z) (k : string)
    (c : gmap string entry) :
  (getCache now k c).2 ⊆ c ∧
  delete k (getCache now k c).2 = delete k c.
Proof.
  split; [apply getCache_subseteq|]. apply map_eq. intros i.
  destruct (decide (i = k)) as [->|Hne].
  - by rewrite !lookup_delete_eq.
  - rewrite !lookup_delete_ne by done. by apply lookup_getCache_ne.
Qed.

(** X3: writing and invalidating the same key absorb each other: an
    invalidation wipes a preceding write, and a write makes a preceding
    invalidation irrelevant. *)
Theorem setCache_invalidateCache_absorb (t : Z) (k : string) (v : value)
    (c : gmap string entry) :
  invalidateCache k (setCache t k v c) = invalidateCache k c ∧
  setCache t k v (invalidateCache k c) = setCache t k v c.
Proof.
  rewrite !invalidateCache_delete. unfold setCache. split.
  - apply delete_insert_eq.
  - apply insert_delete_eq.
Qed.

(** X4: two calls on different keys commute: whichever of [getCache],
    [setCache], [invalidateCache] they are and whenever they are made, the
    cache they leave does not depend on their order. *)
Theorem apply_op_commute (t1 t2 : Z) (o1 o2 : op) (c : gmap string entry) :
  op_key o1 ≠ op_key o2 →
  apply_op t1 o1 (apply_op t2 o2 c) = apply_op t2 o2 (apply_op t1 o1 c).
Proof.
  intros Hne. apply map_eq. intros i.
  rewrite !lookup_apply_op.
  repeat case_decide; simplify_eq; done.
Qed.

Lemma apply_op_commute_witness :
  apply_op 5 (OpGet "user:1:saves")
    (apply_op 9 (OpSet "user:2:saves" VNull) ∅)
  = apply_op 9 (OpSet "user:2:saves" VNull)
      (apply_op 5 (OpGet "user:1:saves") ∅).
Proof. apply apply_op_commute. discriminate. Defined.

Lemma dom_apply_op now o c :
  dom (apply_op now o c) ⊆ dom c ∪ written_keys [(now, o)].
Proof.
  destruct o as [key|key d|key]; simpl.
  - pose proof (subseteq_dom _ _ (getCache_subseteq now key c)) as Hsub.
    apply union_subseteq_l', Hsub.
  - unfold setCache. rewrite dom_insert. set_solver.
  - rewrite invalidateCache_delete, dom_delete. set_solver.
Qed.

(** X5: only [setCache] creates entries.  After any sequence of calls the
    keys in the cache are among those it started with and those the
    sequence wrote. *)
Theorem run_keys_bounded (calls : list (Z * op)) (c : gmap string entry) :
  dom (run calls c) ⊆ dom c ∪ written_keys calls.
Proof.
  revert c. induction calls as [|[now o] rest IH]; intros c; simpl.
  - set_solver.
  - pose proof (IH (apply_op now o c)) as Hrest.
    pose proof (dom_apply_op now o c) as Hhd.
    destruct o; simpl in *; set_solver.
Qed.

Lemma timestamps_apply_op (T now : Z) (o : op) (c : gmap string entry) :
  now ≤ T →
  map_Forall (λ _ e, timestamp e ≤ T) c →
  map_Forall (λ _ e, timestamp e ≤ T) (apply_op now o c).
Proof.
  intros Hnow Hc. destruct o as [key|key d|key]; simpl.
  - intros i e Hi. apply (Hc i e).
    eapply lookup_weaken; [exact Hi|apply getCache_subseteq].
  - by apply map_Forall_insert_2.
  - rewrite invalidateCache_delete. by apply map_Forall_delete.
Qed.

(** X6: entries are stamped with the clock and never later.  If no entry
    of the cache and no call of a sequence is later than [T], no entry of
    the resulting cache is stamped later than [T]. *)
Theorem run_timestamps_bounded (T : Z) (calls : list (Z * op))
    (c : gmap string entry) :
  map_Forall (λ _ e, timestamp e ≤ T) c →
  Forall (λ call, call.1 ≤ T) calls →
  map_Forall (λ _ e, timestamp e ≤ T) (run calls c).
Proof.
  revert c. induction calls as [|[now o] rest IH]; intros c Hc Hcalls; [done|].
  apply Forall_cons in Hcalls as [Hhd Htl]. simpl in *.
  apply IH; [|done]. by apply timestamps_apply_op.
Qed.

Lemma run_timestamps_bounded_witness :
  map_Forall (λ _ e, timestamp e ≤ 20)
    (run [(10, OpSet "user:1:saves" VNull); (20, OpGet "user:2:saves")]
       {["user:2:saves" := Entry (VArr []) 3]}).
Proof.
  apply run_timestamps_bounded.
  - apply map_Forall_singleton. simpl. lia.
  - repeat constructor; simpl; lia.
Defined.

Lemma reads_null_getCache now k c :
  reads_null k c → (getCache now k c).1 = VNull.
Proof.
  unfold reads_null, getCache. destruct (c !! k) as [e|]; [|done].
  intros He. by destruct (_ <? _).
Qed.

Lemma getCache_reads_null now k c :
  (getCache now k c).1 = VNull → reads_null k (getCache now k c).2.
Proof.
  unfold reads_null, getCache. destruct (c !! k) as [e|] eqn:Hk.
  - destruct (_ <? _); simpl; intros He.
    + by rewrite Hk.
    + by rewrite lookup_delete_eq.
  - simpl. by rewrite Hk.
Qed.

Lemma reads_null_apply_op now o k c :
  writes_key k o = false → reads_null k c → reads_null k (apply_op now o c).
Proof.
  unfold reads_null. intros Hw Hc. rewrite lookup_apply_op.
  case_decide as Hk; [subst k|done].
  destruct o as [key|key d|key]; simpl in *.
  - destruct (c !! key) as [e|]; [|done]. by destruct (_ <? _).
  - by rewrite bool_decide_eq_true_2 in Hw.
  - done.
Qed.

(** X7: only [setCache] makes a key readable.  Once a read of [k] has
    returned [null], every later read of [k] returns [null] as well,
    whatever the clock does, as long as no [setCache] on [k] comes in
    between. *)
Theorem getCache_null_until_written (now now' : Z) (k : string)
    (calls : list (Z * op)) (c : gmap string entry) :
  (getCache now k c).1 = VNull →
  Forall (λ call, writes_key k call.2 = false) calls →
  (getCache now' k (run calls (getCache now k c).2)).1 = VNull.
Proof.
  intros Hnull Hcalls. apply reads_null_getCache.
  apply getCache_reads_null in Hnull.
  revert Hnull. generalize ((getCache now k c).2). clear c.
  induction calls as [|[t o] rest IH]; intros c Hc; [done|].
  apply Forall_cons in Hcalls as [Hhd Htl]. simpl in *.
  apply IH; [done|]. by apply reads_null_apply_op.
Qed.

Lemma getCache_null_until_written_witness :
  (getCache 1 "user:42:saves"
     (run [(400000, OpGet "user:42:saves");
           (400001, OpSet "user:7:saves" (VArr []));
           (400002, OpInvalidate "user:42:saves")]
        (getCache 300000 "user:42:saves"
           {["user:42:saves" := Entry (VArr []) 0]}).2)).1 = VNull.
Proof.
  apply getCache_null_until_written.
  - reflexivity.
  - repeat constructor.
Defined.

(** * Further properties of the handlers *)

Lemma length_append (s t : string) :
  String.length (s +:+ t) = (String.length s + String.length t)%nat.
Proof. induction s as [|a s IH]; simpl; [done|by rewrite IH]. Qed.

Lemma append_inj_r (s1 s2 t : string) : s1 +:+ t = s2 +:+ t → s1 = s2.
Proof.
  revert s2. induction s1 as [|a s1 IH]; intros [|b s2] Heq.
  - done.
  - apply (f_equal String.length) in Heq.
    rewrite !length_append in Heq. simpl in Heq. lia.
  - apply (f_equal String.length) in Heq.
    rewrite !length_append in Heq. simpl in Heq. lia.
  - injection Heq as -> Heq. f_equal. by apply IH.
Qed.

(** X8: two users never share a cache key: [user:<id>:saves] determines
    the id. *)
Theorem cacheKey_inj (u1 u2 : string) : cacheKey u1 = cacheKey u2 → u1 = u2.
Proof.
  unfold cacheKey. intros Heq.
  apply (String.app_inj "user:") in Heq. by apply append_inj_r in Heq.
Qed.

Lemma cacheKey_inj_witness : "42" = "42".
Proof. apply cacheKey_inj. reflexivity. Defined.

Lemma list_prog_agrees backend t_get t_set user_id c :
  (run_prog backend (list_prog t_get t_set user_id c)).1
  = list_saves t_get t_set user_id (backend (list_query user_id)) c.
Proof.
  unfold list_prog, list_saves.
  by destruct (list_lookup t_get user_id c) as [[r|] c'].
Qed.

Lemma upload_prog_agrees backend req det now c fileName :
  up_file req = Some fileName →
  (run_prog backend (upload_prog req det now c)).1
  = post_upload req (backend (upload_call req det now fileName))
      (backend (upsert_call req det now fileName))
      (backend (cleanup_call req now fileName)) c.
Proof.
  intros Hfile. unfold upload_prog, post_upload. rewrite Hfile.
  fold (upload_call req det now fileName)
       (upsert_call req det now fileName) (cleanup_call req now fileName).
  destruct (up_metadata req); simpl; try done;
    destruct (backend (upload_call _ _ _ _)) as [u|]; simpl; try done;
    destruct (truthy (sdk_error u)); simpl; try done;
    destruct (backend (upsert_call _ _ _ _)) as [m|]; simpl; try done;
    destruct (truthy (sdk_error m)); simpl;
    try (by destruct (backend (cleanup_call _ _ _)));
    by destruct (index0 (sdk_data m)).
Qed.

Lemma delete_prog_agrees backend user_id fileName c :
  (run_prog backend (delete_prog user_id fileName c)).1
  = delete_save user_id fileName
      (backend (owner_query "id, storage_path" user_id fileName))
      (backend (remove_call (found_row
         (backend (owner_query "id, storage_path" user_id fileName)))))
      (backend (delete_call (found_row
         (backend (owner_query "id, storage_path" user_id fileName))))) c.
Proof.
  unfold delete_prog, delete_save. simpl.
  fold (owner_query "id, storage_path" user_id fileName).
  destruct (backend (owner_query _ _ _)) as [f|]; simpl; [|done].
  fold (remove_call (sdk_data f)) (delete_call (sdk_data f)).
  destruct (truthy (sdk_error f) || negb (truthy (sdk_data f))); simpl;
    [done|].
  destruct (backend (remove_call _)); simpl; [|done].
  destruct (backend (delete_call _)) as [d|]; simpl; [|done].
  by destruct (truthy (sdk_error d)).
Qed.

Lemma list_lookup_hit t user_id c e :
  c !! cacheKey user_id = Some e →
  t - timestamp e < CACHE_TTL_MS → truthy (data e) = true →
  list_lookup t user_id c = (Some (Response 200 (data e)), c).
Proof.
  intros Hk Hfresh Htruthy. unfold list_lookup.
  by rewrite (getCache_hit _ _ t e Hk Hfresh), Htruthy.
Qed.

Lemma list_lookup_absent t user_id c :
  c !! cacheKey user_id = None → list_lookup t user_id c = (None, c).
Proof.
  intros Hk. unfold list_lookup. by rewrite (getCache_miss _ _ t Hk).
Qed.

(** X9: the listing is answered from the cache without any call to the
    backend when the user's entry is fresh and truthy; otherwise the
    handler makes exactly one call, the listing query filtered by the id of
    the requesting user and ordered by [updated_at], newest first. *)
Theorem list_calls_backend_only_on_miss
    (backend : sdk_call → settled sdk_result) (t_get t_set : Z)
    (user_id : string) (c : gmap string entry) :
  (∀ e, c !! cacheKey user_id = Some e →
        t_get - timestamp e < CACHE_TTL_MS → truthy (data e) = true →
        run_prog backend (list_prog t_get t_set user_id c)
        = ((Response 200 (data e), c), [])) ∧
  ((list_lookup t_get user_id c).1 = None →
     (run_prog backend (list_prog t_get t_set user_id c)).2
     = [TableSelect "save_metadata"
          "id, file_name, size_bytes, version, custom_metadata, updated_at"
          [("user_id", VStr user_id)] (Some ("updated_at", false)) false]).
Proof.
  split.
  - intros e Hk Hfresh Htruthy. unfold list_prog.
    by rewrite (list_lookup_hit _ _ _ e Hk Hfresh Htruthy).
  - unfold list_prog.
    destruct (list_lookup t_get user_id c) as [[r|] c']; simpl; done.
Qed.

Lemma list_calls_backend_only_on_miss_witness :
  run_prog (λ _, Rejected "backend down")
    (list_prog 1000 1001 "42" {[cacheKey "42" := Entry (VArr []) 0]})
  = ((Response 200 (VArr []), {[cacheKey "42" := Entry (VArr []) 0]}), []) ∧
  (run_prog (λ _, Rejected "backend down")
     (list_prog 1000 1001 "42" ∅)).2 = [list_query "42"].
Proof.
  split.
  - apply (proj1 (list_calls_backend_only_on_miss (λ _, Rejected "backend down")
                    1000 1001 "42" {[cacheKey "42" := Entry (VArr []) 0]})
             (Entry (VArr []) 0)).
    + apply lookup_singleton_eq.
    + unfold CACHE_TTL_MS. simpl. lia.
    + reflexivity.
  - apply (proj2 (list_calls_backend_only_on_miss (λ _, Rejected "backend down")
                    1000 1001 "42" ∅)).
    reflexivity.
Defined.

(** Calls that leave an entry written at [t_set] where it is: calls on
    other keys, and reads of the key made before the entry expires. *)
Lemma lookup_run_keeps (k : string) (t_set : Z) (e : entry)
    (calls : list (Z * op)) : ∀ c,
  timestamp e = t_set →
  c !! k = Some e →
  Forall (λ call, op_key call.2 ≠ k ∨
                  (call.2 = OpGet k ∧ call.1 - t_set < CACHE_TTL_MS)) calls →
  run calls c !! k = Some e.
Proof.
  induction calls as [|[now o] rest IH]; intros c Ht Hk Hall; [done|].
  apply Forall_cons in Hall as [Hhd Htl]. simpl in *.
  apply IH; [done| |done].
  destruct Hhd as [Hne|[-> Hfresh]].
  - by rewrite lookup_apply_op_ne.
  - simpl. rewrite (getCache_hit c k now e Hk); [done|]. by rewrite Ht.
Qed.

(** X10: read-through round trip.  When a listing request misses and the
    query resolves without error to a truthy [data], a later request of
    the same user made less than [CACHE_TTL_MS] after the store is
    answered 200 with that same [data] and no call to the backend,
    whatever the backend would answer by then, provided the cache calls
    made in between are calls on other keys or reads of the user's key
    made before the entry expires.  (A [setCache] or an [invalidateCache]
    on the key in between is excluded: an upload or a deletion of that
    user ends the round trip.) *)
Theorem list_read_through (backend backend' : sdk_call → settled sdk_result)
    (t_get t_set t_get' t_set' : Z) (user_id : string) (d err : value)
    (between : list (Z * op)) (c : gmap string entry) :
  (list_lookup t_get user_id c).1 = None →
  backend (list_query user_id) = Resolved (SdkResult d err) →
  truthy err = false → truthy d = true →
  Forall (λ call, op_key call.2 ≠ cacheKey user_id ∨
                  (call.2 = OpGet (cacheKey user_id) ∧
                   call.1 - t_set < CACHE_TTL_MS)) between →
  t_get' - t_set < CACHE_TTL_MS →
  (run_prog backend (list_prog t_get t_set user_id c)).1.1 = Response 200 d ∧
  run_prog backend'
    (list_prog t_get' t_set' user_id
       (run between
          (run_prog backend (list_prog t_get t_set user_id c)).1.2))
  = ((Response 200 d,
      run between
        (run_prog backend (list_prog t_get t_set user_id c)).1.2), []).
Proof.
  intros Hmiss Hq Herr Hd Hbetween Hfresh.
  assert (Hfirst : (run_prog backend (list_prog t_get t_set user_id c)).1
                   = (Response 200 d,
                      setCache t_set (cacheKey user_id) d
                        (list_lookup t_get user_id c).2)).
  { unfold list_prog.
    destruct (list_lookup t_get user_id c) as [[r|] c']; simpl in *; [done|].
    by rewrite Hq; simpl; rewrite Herr. }
  rewrite Hfirst. simpl. split; [done|].
  unfold list_prog.
  by rewrite (list_lookup_hit t_get' user_id _ (Entry d t_set)
                (lookup_run_keeps _ t_set (Entry d t_set) between _ eq_refl
                   (lookup_setCache_eq _ _ _ _) Hbetween) Hfresh Hd).
Qed.

Lemma list_read_through_witness :
  (run_prog (λ _, Resolved (SdkResult (VArr [VStr "a"]) VNull))
     (list_prog 0 5 "42" ∅)).1.1 = Response 200 (VArr [VStr "a"]) ∧
  run_prog (λ _, Rejected "backend down")
    (list_prog 300004 300009 "42"
       (run [(100, OpGet (cacheKey "42"));
             (200, OpSet (cacheKey "7") (VArr []));
             (300, OpInvalidate (cacheKey "7"))]
          (run_prog (λ _, Resolved (SdkResult (VArr [VStr "a"]) VNull))
             (list_prog 0 5 "42" ∅)).1.2))
  = ((Response 200 (VArr [VStr "a"]),
      run [(100, OpGet (cacheKey "42"));
           (200, OpSet (cacheKey "7") (VArr []));
           (300, OpInvalidate (cacheKey "7"))]
        (run_prog (λ _, Resolved (SdkResult (VArr [VStr "a"]) VNull))
           (list_prog 0 5 "42" ∅)).1.2), []).
Proof.
  apply (list_read_through _ _ 0 5 300004 300009 "42" (VArr [VStr "a"]) VNull
           [(100, OpGet (cacheKey "42"));
            (200, OpSet (cacheKey "7") (VArr []));
            (300, OpInvalidate (cacheKey "7"))]);
    try reflexivity.
  constructor; [|constructor; [|constructor; [|constructor]]]; simpl.
  - right. split; [reflexivity|]. unfold CACHE_TTL_MS. lia.
  - left. discriminate.
  - left. discriminate.
Defined.

(** X11: GET / answers 200 or 500 and nothing else; it answers 500 exactly
    when the cache had nothing to serve and the query failed. *)
Theorem list_status_cases (t_get t_set : Z) (user_id : string)
    (query : settled sdk_result) (c : gmap string entry) :
  status (list_saves t_get t_set user_id query c).1
  = (if bool_decide (is_Some (list_lookup t_get user_id c).1)
        || negb (query_failed query)
     then 200 else 500).
Proof.
  unfold list_saves.
  destruct (list_lookup t_get user_id c) as [[r|] c'] eqn:Hl; simpl.
  - unfold list_lookup in Hl.
    destruct (getCache t_get (cacheKey user_id) c) as [v c1].
    destruct (truthy v); by simplify_eq.
  - destruct query as [q|]; simpl; [|done]. by destruct (truthy (sdk_error q)).
Qed.

Lemma cacheKey_ne (u u' : string) : u ≠ u' → cacheKey u ≠ cacheKey u'.
Proof.
  intros Hne Heq. apply Hne. unfold cacheKey in Heq.
  apply (String.app_inj "user:") in Heq. by apply append_inj_r in Heq.
Qed.

Lemma post_upload_cache req uploaded upserted cleaned c :
  (post_upload req uploaded upserted cleaned c).2
  = (if upload_succeeded req uploaded upserted
     then invalidateCache (cacheKey (up_user req)) c else c).
Proof.
  unfold post_upload, upload_succeeded, query_failed.
  destruct req as [user [name|] [| |meta]]; simpl; try done;
    destruct uploaded as [u|]; simpl; try done;
    destruct (truthy (sdk_error u)); simpl; try done;
    destruct upserted as [m|]; simpl; try done;
    destruct (truthy (sdk_error m)); simpl;
    try (by destruct cleaned); by destruct (index0 (sdk_data m)).
Qed.

Lemma delete_save_cache user_id fileName found removed deleted c :
  (delete_save user_id fileName found removed deleted c).2
  = (if delete_succeeded found removed deleted
     then invalidateCache (cacheKey user_id) c else c).
Proof.
  unfold delete_save, delete_succeeded, query_failed.
  destruct found as [f|]; [|done].
  destruct (truthy (sdk_error f)), (truthy (sdk_data f)); simpl;
    try (by destruct removed);
    destruct removed; [|done]; destruct deleted as [d|]; [|done];
    by destruct (truthy (sdk_error d)).
Qed.

Lemma list_saves_cache_ne t_get t_set user_id query c k :
  cacheKey user_id ≠ k →
  (list_saves t_get t_set user_id query c).2 !! k = c !! k.
Proof.
  intros Hne. unfold list_saves, list_lookup.
  pose proof (lookup_getCache_ne c (cacheKey user_id) t_get k Hne) as Hget.
  destruct (getCache t_get (cacheKey user_id) c) as [v c1]. simpl in Hget.
  destruct (truthy v); simpl; [done|].
  destruct query as [q|]; simpl; [|done].
  destruct (truthy (sdk_error q)); simpl; [done|].
  by rewrite lookup_setCache_ne.
Qed.

(** X12: serving one user never alters what is cached for another.  For a
    user [other] different from the requesting one, the entry under
    [other]'s key is the same before and after a listing, an upload or a
    deletion, however the request goes. *)
Theorem handlers_leave_other_users_alone (other : string)
    (t_get t_set : Z) (user_id fileName : string) (req : upload_request)
    (query uploaded upserted cleaned found removed deleted
       : settled sdk_result)
    (c : gmap string entry) :
  user_id ≠ other → up_user req ≠ other →
  (list_saves t_get t_set user_id query c).2 !! cacheKey other
  = c !! cacheKey other ∧
  (post_upload req uploaded upserted cleaned c).2 !! cacheKey other
  = c !! cacheKey other ∧
  (delete_save user_id fileName found removed deleted c).2 !! cacheKey other
  = c !! cacheKey other.
Proof.
  intros Hu Hreq. split; [|split].
  - by apply list_saves_cache_ne, cacheKey_ne.
  - rewrite post_upload_cache. destruct (upload_succeeded _ _ _); [|done].
    by apply lookup_invalidateCache_ne, cacheKey_ne.
  - rewrite delete_save_cache. destruct (delete_succeeded _ _ _); [|done].
    by apply lookup_invalidateCache_ne, cacheKey_ne.
Qed.

Lemma handlers_leave_other_users_alone_witness :
  (list_saves 0 1 "42" (Resolved (SdkResult (VArr []) VNull))
     {[cacheKey "7" := Entry (VNum 1) 0]}).2 !! cacheKey "7"
  = ({[cacheKey "7" := Entry (VNum 1) 0]} : gmap string entry)
      !! cacheKey "7" ∧
  (post_upload (UploadRequest "42" (Some "a.sav") NoMetadata)
     (Resolved (SdkResult VNull VNull))
     (Resolved (SdkResult (VArr []) VNull)) (Rejected "")
     {[cacheKey "7" := Entry (VNum 1) 0]}).2 !! cacheKey "7"
  = ({[cacheKey "7" := Entry (VNum 1) 0]} : gmap string entry)
      !! cacheKey "7" ∧
  (delete_save "42" "a.sav" (Resolved (SdkResult (VObj []) VNull))
     (Resolved (SdkResult VNull VNull)) (Resolved (SdkResult VNull VNull))
     {[cacheKey "7" := Entry (VNum 1) 0]}).2 !! cacheKey "7"
  = ({[cacheKey "7" := Entry (VNum 1) 0]} : gmap string entry)
      !! cacheKey "7".
Proof.
  apply handlers_leave_other_users_alone; discriminate.
Defined.

(** X13: after an upload or a deletion that went through, the next listing
    request of that user is not answered from the cache: it makes the
    listing query and answers with what the query gives, on the cache with
    the user's key removed. *)
Theorem list_after_mutation_queries_backend
    (backend : sdk_call → settled sdk_result) (t_get t_set : Z)
    (user_id fileName : string) (req : upload_request)
    (uploaded upserted cleaned found removed deleted : settled sdk_result)
    (c : gmap string entry) :
  (upload_succeeded req uploaded upserted = true →
     run_prog backend
       (list_prog t_get t_set (up_user req)
          (post_upload req uploaded upserted cleaned c).2)
     = (list_settle t_set (up_user req) (backend (list_query (up_user req)))
          (invalidateCache (cacheKey (up_user req)) c),
        [list_query (up_user req)])) ∧
  (delete_succeeded found removed deleted = true →
     run_prog backend
       (list_prog t_get t_set user_id
          (delete_save user_id fileName found removed deleted c).2)
     = (list_settle t_set user_id (backend (list_query user_id))
          (invalidateCache (cacheKey user_id) c),
        [list_query user_id])).
Proof.
  split; intros Hok.
  - rewrite post_upload_cache, Hok. unfold list_prog.
    by rewrite list_lookup_absent by apply lookup_invalidateCache_eq.
  - rewrite delete_save_cache, Hok. unfold list_prog.
    by rewrite list_lookup_absent by apply lookup_invalidateCache_eq.
Qed.

Lemma list_after_mutation_queries_backend_witness :
  run_prog (λ _, Resolved (SdkResult (VArr [VStr "new"]) VNull))
    (list_prog 10 11 "42"
       (post_upload (UploadRequest "42" (Some "a.sav") NoMetadata)
          (Resolved (SdkResult VNull VNull))
          (Resolved (SdkResult (VArr []) VNull)) (Rejected "")
          {[cacheKey "42" := Entry (VArr [VStr "old"]) 9]}).2)
  = (list_settle 11 "42" (Resolved (SdkResult (VArr [VStr "new"]) VNull))
       (invalidateCache (cacheKey "42")
          {[cacheKey "42" := Entry (VArr [VStr "old"]) 9]}),
     [list_query "42"]).
Proof.
  apply (proj1 (list_after_mutation_queries_backend
    (λ _, Resolved (SdkResult (VArr [VStr "new"]) VNull)) 10 11 "42" "a.sav"
    (UploadRequest "42" (Some "a.sav") NoMetadata)
    (Resolved (SdkResult VNull VNull))
    (Resolved (SdkResult (VArr []) VNull)) (Rejected "")
    (Rejected "") (Rejected "") (Rejected "")
    {[cacheKey "42" := Entry (VArr [VStr "old"]) 9]})).
  reflexivity.
Defined.

(** X14: the replies of POST /upload.  No response at all is sent exactly
    when a file came with metadata that does not parse; a response is 400
    exactly when no file came, 201 exactly when the upload went through and
    the upsert returned something other than [null] or [undefined], and
    500 otherwise. *)
Theorem upload_reply_cases (req : upload_request)
    (uploaded upserted cleaned : settled sdk_result)
    (c : gmap string entry) :
  ((post_upload req uploaded upserted cleaned c).1 = Unhandled ↔
     is_Some (up_file req) ∧ up_metadata req = BadMetadata) ∧
  (∀ r, (post_upload req uploaded upserted cleaned c).1 = Sent r →
     (status r = 400 ↔ up_file req = None) ∧
     (status r = 201 ↔
        upload_succeeded req uploaded upserted = true ∧
        ∃ m, upserted = Resolved m ∧ nullish (sdk_data m) = false) ∧
     (status r = 400 ∨ status r = 201 ∨ status r = 500)).
Proof.
  split.
  - unfold post_upload, upload_unexpected.
    destruct (up_file req) as [name|]; simpl.
    2:{ split; [done|]. by intros [[? [=]] _]. }
    destruct (up_metadata req); simpl.
    2:{ split; eauto. }
    all: split; [|by intros [_ [=]]].
    all: destruct uploaded as [u|]; [|done];
         destruct (truthy (sdk_error u)); [done|];
         destruct upserted as [m|]; [|done];
         destruct (truthy (sdk_error m)); [by destruct cleaned|];
         by destruct (index0 (sdk_data m)).
  - intros r. unfold post_upload, upload_succeeded, query_failed,
      upload_unexpected.
    destruct req as [user [name|] [| |meta]]; simpl;
      try (intros Hr; discriminate Hr).
    3:{ intros [= <-]; simpl. split; [done|]. split; [|by left].
        split; [done|by intros [[=] _]]. }
    all: destruct uploaded as [u|]; simpl;
         [destruct (truthy (sdk_error u)); simpl;
          [|destruct upserted as [[md me]|]; simpl;
            [destruct (truthy me); simpl;
             [destruct cleaned
             |destruct md as [| | | |[|]|[|]|]; simpl]|]]|].
    all: intros [= <-]; simpl.
    all: split; [split; (done || (by intros [=]))|].
    all: split; [|auto].
    all: try (split; [done|by intros [[=] _]]).
    all: try (by split; [done|intros (_ & m & [= <-] & [=])]).
    all: try (by split; [eauto|]).
Qed.

Lemma upload_reply_cases_witness :
  status (Response 400 (message_body "No file uploaded.")) = 400 ↔
  up_file (UploadRequest "42" None NoMetadata) = None.
Proof.
  apply (proj2 (upload_reply_cases (UploadRequest "42" None NoMetadata)
                  (Rejected "") (Rejected "") (Rejected "") ∅)
           (Response 400 (message_body "No file uploaded.")) eq_refl).
Defined.

(** Membership of a call in a list of calls built from other
    constructors. *)
Ltac not_in H :=
  unfold upload_call, upsert_call, cleanup_call, owner_query, remove_call,
    delete_call, download_call in H;
  repeat (apply elem_of_cons in H as [H|H]; [discriminate H|]);
  by apply elem_of_nil in H.

Ltac is_in :=
  solve [repeat first [apply list_elem_of_here | apply list_elem_of_further]].

(** X15: the calls of POST /upload.  Without a file, or with metadata that
    does not parse, the handler calls nothing.  Otherwise it makes, in this
    order and each at most once, the storage upload, the metadata upsert
    and the clean-up removal, and nothing else: the upsert exactly when the
    storage upload resolved without error, the removal exactly when the
    upsert was made and resolved with an error, and then for the very path
    the object was stored under. *)
Theorem upload_calls_in_order (backend : sdk_call → settled sdk_result)
    (req : upload_request) (det : upload_details) (now : Z)
    (fileName : string) (c : gmap string entry) :
  (upload_well_formed req = false →
     (run_prog backend (upload_prog req det now c)).2 = []) ∧
  (up_file req = Some fileName → up_metadata req ≠ BadMetadata →
     (run_prog backend (upload_prog req det now c)).2
       `prefix_of` [upload_call req det now fileName;
                    upsert_call req det now fileName;
                    cleanup_call req now fileName] ∧
     (upsert_call req det now fileName
        ∈ (run_prog backend (upload_prog req det now c)).2 ↔
      query_failed (backend (upload_call req det now fileName)) = false) ∧
     (cleanup_call req now fileName
        ∈ (run_prog backend (upload_prog req det now c)).2 ↔
      query_failed (backend (upload_call req det now fileName)) = false ∧
      ∃ m, backend (upsert_call req det now fileName) = Resolved m ∧
           truthy (sdk_error m) = true)).
Proof.
  split.
  - unfold upload_well_formed, upload_prog.
    destruct (up_file req) as [name|]; simpl; [|done].
    by destruct (up_metadata req).
  - intros Hfile Hmeta. unfold upload_prog. rewrite Hfile.
    fold (upload_call req det now fileName)
         (upsert_call req det now fileName) (cleanup_call req now fileName).
    assert (Hgo : ∀ A (x y : A),
      match up_metadata req with BadMetadata => x | _ => y end = y)
      by (intros; by destruct (up_metadata req)).
    rewrite Hgo. clear Hgo. simpl. unfold query_failed.
    destruct (backend (upload_call _ _ _ _)) as [u|]; simpl.
    2:{ split; [by eexists|]. split; (split; [intros Hin; not_in Hin|]).
        - done.
        - by intros [[=] _]. }
    destruct (truthy (sdk_error u)); simpl.
    { split; [by eexists|]. split; (split; [intros Hin; not_in Hin|]).
      - done.
      - by intros [[=] _]. }
    destruct (backend (upsert_call _ _ _ _)) as [m|]; simpl.
    2:{ split; [by eexists|]. split.
        - split; [done|]. intros _. is_in.
        - split; [intros Hin; not_in Hin|]. by intros [_ (? & [=] & _)]. }
    destruct (truthy (sdk_error m)) eqn:Hm; simpl.
    + destruct (backend (cleanup_call _ _ _)); simpl;
        (split; [done|];
         ((split; split);
          [done | intros _; is_in | eauto | intros _; is_in])).
    + destruct (index0 (sdk_data m)); simpl;
        (split; [by eexists|];
         ((split; split);
          [done | intros _; is_in | intros Hin; not_in Hin
          | intros [_ (m' & [= <-] & Hm')]; congruence])).
Qed.

Lemma upload_calls_in_order_witness :
  cleanup_call (UploadRequest "42" (Some "a.sav") NoMetadata) 17 "a.sav"
    ∈ (run_prog
         (λ call, match call with
                  | TableUpsert _ _ _ =>
                      Resolved (SdkResult VNull (VObj [("message", VStr "no")]))
                  | _ => Resolved (SdkResult VNull VNull)
                  end)
         (upload_prog (UploadRequest "42" (Some "a.sav") NoMetadata)
            (UploadDetails 3 "application/octet-stream" [] VUndefined)
            17 ∅)).2.
Proof.
  apply (proj2 (upload_calls_in_order _
                  (UploadRequest "42" (Some "a.sav") NoMetadata)
                  (UploadDetails 3 "application/octet-stream" [] VUndefined)
                  17 "a.sav" ∅) eq_refl).
  - discriminate.
  - split; [reflexivity|]. eexists. split; reflexivity.
Defined.

(** X16: the calls of DELETE /:fileName.  The handler first looks the file
    up under the id of the requesting user and the name given; unless that
    finds a row it calls nothing more.  Otherwise it asks the storage to
    remove the path of that row and then, whether or not the storage
    reported an error, deletes the metadata row of that id; only a removal
    that throws stops it.  It makes no other call. *)
Theorem delete_calls_in_order (backend : sdk_call → settled sdk_result)
    (user_id fileName : string) (c : gmap string entry) :
  (run_prog backend (delete_prog user_id fileName c)).2
    `prefix_of`
    [owner_query "id, storage_path" user_id fileName;
     remove_call (found_row
       (backend (owner_query "id, storage_path" user_id fileName)));
     delete_call (found_row
       (backend (owner_query "id, storage_path" user_id fileName)))] ∧
  (row_found (backend (owner_query "id, storage_path" user_id fileName))
   = false →
   (run_prog backend (delete_prog user_id fileName c)).2
   = [owner_query "id, storage_path" user_id fileName]) ∧
  (delete_call (found_row
     (backend (owner_query "id, storage_path" user_id fileName)))
     ∈ (run_prog backend (delete_prog user_id fileName c)).2 ↔
   row_found (backend (owner_query "id, storage_path" user_id fileName))
   = true ∧
   ∃ r, backend (remove_call (found_row
          (backend (owner_query "id, storage_path" user_id fileName))))
        = Resolved r).
Proof.
  unfold delete_prog, row_found, found_row. simpl.
  fold (owner_query "id, storage_path" user_id fileName).
  destruct (backend (owner_query _ _ _)) as [f|]; simpl.
  2:{ split; [by eexists|]. split; [done|].
      split; [intros Hin; not_in Hin|by intros [[=] _]]. }
  fold (remove_call (sdk_data f)) (delete_call (sdk_data f)).
  destruct (truthy (sdk_error f) || negb (truthy (sdk_data f))); simpl.
  { split; [by eexists|]. split; [done|].
    split; [intros Hin; not_in Hin|by intros [[=] _]]. }
  destruct (backend (remove_call _)) as [r|]; simpl.
  2:{ split; [by eexists|]. split; [done|].
      split; [intros Hin; not_in Hin|by intros [_ [? [=]]]]. }
  destruct (backend (delete_call _)) as [d|]; simpl.
  2:{ split; [done|]. split; [done|]. split; [by eauto|intros _; is_in]. }
  destruct (truthy (sdk_error d)); simpl;
    (split; [done|]; split; [done|]; split; [by eauto|intros _; is_in]).
Qed.

Lemma delete_calls_in_order_witness :
  (run_prog (λ _, Rejected "down") (delete_prog "42" "a.sav" ∅)).2
  = [owner_query "id, storage_path" "42" "a.sav"].
Proof.
  apply (proj1 (proj2 (delete_calls_in_order (λ _, Rejected "down")
                         "42" "a.sav" ∅))).
  reflexivity.
Defined.

(** X17: the answers of DELETE /:fileName.  It answers 404 exactly when the
    lookup resolved without finding a row (or with an error), 200 exactly
    when the deletion went through, and 500 in every other case: a call
    that threw, or a metadata deletion that resolved with an error. *)
Theorem delete_status_cases (user_id fileName : string)
    (found removed deleted : settled sdk_result) (c : gmap string entry) :
  status (delete_save user_id fileName found removed deleted c).1
  = match found with
    | Resolved _ =>
        if row_found found
        then if delete_succeeded found removed deleted then 200 else 500
        else 404
    | Rejected _ => 500
    end.
Proof.
  unfold delete_save, delete_succeeded, row_found, query_failed.
  destruct found as [f|]; [|done].
  destruct (truthy (sdk_error f)), (truthy (sdk_data f)); simpl; try done;
    destruct removed; [|done]; destruct deleted as [d|]; [|done];
    by destruct (truthy (sdk_error d)).
Qed.

(** X18: the download sends the file only when everything went well.  The
    response carries file bytes exactly when the lookup found a row for
    this user and file name, the storage download resolved without error
    and with data, both headers passed the check of [res.setHeader], and
    the conversion of the data returned a promise that resolved to these
    bytes; the response is then a 200 that names the row's [file_name] in
    its [Content-Disposition] header.  In particular a stored [file_name]
    that makes an invalid header value never gets the file. *)
Theorem download_sends_file_iff (valid_header : string → string → bool)
    (backend : sdk_call → settled sdk_result)
    (user_id fileName : string)
    (arrayBuffer : string + settled (list Byte.byte))
    (bytes : list Byte.byte) :
  (dl_payload (run_prog backend
                 (download_prog valid_header user_id fileName arrayBuffer)).1
   = File bytes ↔
   row_found (backend (owner_query "storage_path, file_name"
                         user_id fileName)) = true ∧
   (∃ d, backend (download_call (found_row
           (backend (owner_query "storage_path, file_name"
                       user_id fileName)))) = Resolved d ∧
         truthy (sdk_error d) = false ∧ nullish (sdk_data d) = false) ∧
   valid_header "Content-Disposition"
     (disposition (get_prop (found_row
        (backend (owner_query "storage_path, file_name"
                    user_id fileName))) "file_name")) = true ∧
   valid_header "Content-Type" "application/octet-stream" = true ∧
   arrayBuffer = inr (Resolved bytes)) ∧
  (dl_payload (run_prog backend
                 (download_prog valid_header user_id fileName arrayBuffer)).1
   = File bytes →
   (run_prog backend
      (download_prog valid_header user_id fileName arrayBuffer)).1
   = DownloadResponse 200
       (download_headers (get_prop (found_row
          (backend (owner_query "storage_path, file_name"
                      user_id fileName))) "file_name"))
       (File bytes)).
Proof.
  unfold download_prog, row_found, found_row, download_unexpected. simpl.
  fold (owner_query "storage_path, file_name" user_id fileName).
  destruct (backend (owner_query _ _ _)) as [f|]; simpl.
  2:{ split; [|done]. split; [done|by intros [[=] _]]. }
  fold (download_call (sdk_data f)).
  destruct (truthy (sdk_error f) || negb (truthy (sdk_data f))); simpl.
  { split; [|done]. split; [done|by intros [[=] _]]. }
  destruct (backend (download_call _)) as [[dd de]|]; simpl.
  2:{ split; [|done]. split; [done|by intros (_ & (? & [=] & _) & _)]. }
  destruct (truthy de) eqn:Hde; simpl.
  { split; [|done]. split; [done|].
    intros (_ & (d & [= <-] & Hd & _) & _). simpl in Hd. congruence. }
  destruct (valid_header "Content-Disposition" _) eqn:Hcd; simpl.
  2:{ split; [|done]. split; [done|by intros (_ & _ & [=] & _)]. }
  destruct (valid_header "Content-Type" _) eqn:Hct; simpl.
  2:{ split; [|done]. split; [done|by intros (_ & _ & _ & [=] & _)]. }
  destruct dd; simpl;
    try (split; [|done]; split; [done|];
         by intros (_ & (d & [= <-] & _ & [=]) & _)).
  all: destruct arrayBuffer as [msg|[buf|]]; simpl.
  all: try (split; [|done]; split; [done|by intros (_ & _ & _ & _ & [=])]).
  all: split; [|by intros [= ->]].
  all: split; [intros [= ->]; by eauto 10
              |by intros (_ & _ & _ & _ & [= ->])].
Qed.

Lemma download_sends_file_iff_witness :
  (run_prog (λ call, Resolved (SdkResult
                (VObj [("storage_path", VStr "42/17_a.sav");
                       ("file_name", VStr "a.sav")]) VNull))
     (download_prog (λ _, header_value_ok) "42" "a.sav"
        (inr (Resolved [])))).1
  = DownloadResponse 200
      [("Content-Disposition",
        "attachment; filename=" +:+ dquote +:+ "a.sav" +:+ dquote);
       ("Content-Type", "application/octet-stream")]
      (File []).
Proof.
  apply (proj2 (download_sends_file_iff (λ _, header_value_ok)
    (λ call, Resolved (SdkResult
               (VObj [("storage_path", VStr "42/17_a.sav");
                      ("file_name", VStr "a.sav")]) VNull))
    "42" "a.sav" (inr (Resolved [])) [])).
  reflexivity.
Defined.

(** X19: the download asks the storage only for a file of the requesting
    user.  The handler first looks the file up under the user's id and the
    name given; it calls the storage exactly when that finds a row, and
    then for the path of that row; it makes no other call. *)
Theorem download_calls_in_order (valid_header : string → string → bool)
    (backend : sdk_call → settled sdk_result)
    (user_id fileName : string)
    (arrayBuffer : string + settled (list Byte.byte)) :
  (run_prog backend
     (download_prog valid_header user_id fileName arrayBuffer)).2
    `prefix_of`
    [owner_query "storage_path, file_name" user_id fileName;
     download_call (found_row
       (backend (owner_query "storage_path, file_name"
                   user_id fileName)))] ∧
  (download_call (found_row
     (backend (owner_query "storage_path, file_name" user_id fileName)))
     ∈ (run_prog backend
          (download_prog valid_header user_id fileName arrayBuffer)).2 ↔
   row_found (backend (owner_query "storage_path, file_name"
                         user_id fileName)) = true) ∧
  (dl_status (run_prog backend
                (download_prog valid_header user_id fileName
                   arrayBuffer)).1 = 404 ↔
   ∃ f, backend (owner_query "storage_path, file_name" user_id fileName)
        = Resolved f ∧
        row_found (Resolved f) = false).
Proof.
  unfold download_prog, row_found, found_row, download_unexpected. simpl.
  fold (owner_query "storage_path, file_name" user_id fileName).
  destruct (backend (owner_query _ _ _)) as [f|]; simpl.
  2:{ split; [by eexists|].
      split; (split; [|by (intros [? [[=] _]] || intros [=])]);
        [intros Hin; not_in Hin|done]. }
  fold (download_call (sdk_data f)).
  destruct (truthy (sdk_error f) || negb (truthy (sdk_data f))) eqn:Hf; simpl.
  { split; [by eexists|].
    split; [split; [intros Hin; not_in Hin|done]|].
    split; [|done]. intros _. exists f. by rewrite Hf. }
  assert (Hno : ¬ ∃ f0 : sdk_result,
             Resolved f = Resolved f0 ∧
             negb (truthy (sdk_error f0) || negb (truthy (sdk_data f0)))
             = false).
  { intros (f0 & [= <-] & Hf0). by rewrite Hf in Hf0. }
  assert (Hin : download_call (sdk_data f)
                ∈ [owner_query "storage_path, file_name" user_id fileName;
                   download_call (sdk_data f)]) by is_in.
  destruct (backend (download_call _)) as [[dd de]|]; simpl;
    [destruct (truthy de); simpl;
     [|destruct (valid_header "Content-Disposition" _); simpl;
       [destruct (valid_header "Content-Type" _); simpl;
        [destruct dd; simpl; try destruct arrayBuffer as [?|[?|]]; simpl
        |]|]]|];
    (split; [done|]; split; [done|]; split; [done|by intros ?]).
Qed.

Lemma download_calls_in_order_witness :
  download_call (found_row (Resolved (SdkResult
      (VObj [("storage_path", VStr "42/17_a.sav")]) VNull)))
    ∈ (run_prog (λ _, Resolved (SdkResult
                   (VObj [("storage_path", VStr "42/17_a.sav")]) VNull))
         (download_prog (λ _, header_value_ok) "42" "a.sav"
            (inr (Rejected "")))).2.
Proof.
  apply (proj1 (proj2 (download_calls_in_order (λ _, header_value_ok)
    (λ _, Resolved (SdkResult
            (VObj [("storage_path", VStr "42/17_a.sav")]) VNull))
    "42" "a.sav" (inr (Rejected ""))))).
  reflexivity.
Defined.

(** ** The handlers on concrete requests *)

Example filePath_42 : filePath "42" 1700000000000 "slot1.sav"
                      = "42/1700000000000_slot1.sav".
Proof. reflexivity. Qed.

Example to_string_array :
  to_string (VArr [VNum 1; VNull; VStr "a"; VArr [VBool true; VUndefined]])
  = "1,,a,true,".
Proof. reflexivity. Qed.

(** Metadata that does not parse: nothing is called, nothing is sent. *)
Example upload_bad_metadata :
  run_prog (λ _, Resolved (SdkResult VNull VNull))
    (upload_prog (UploadRequest "42" (Some "a.sav") BadMetadata)
       (UploadDetails 3 "application/octet-stream" [] VUndefined) 17 ∅)
  = ((Unhandled, ∅), []).
Proof. reflexivity. Qed.

(** A storage error on deletion is passed over: the row is deleted and the
    key invalidated. *)
Example delete_run :
  run_prog
    (λ call, match call with
             | TableSelect _ _ _ _ _ =>
                 Resolved (SdkResult
                   (VObj [("id", VNum 5);
                          ("storage_path", VStr "42/17_a.sav")]) VNull)
             | StorageRemove _ _ =>
                 Resolved (SdkResult VNull (VObj [("message", VStr "gone")]))
             | _ => Resolved (SdkResult VNull VNull)
             end)
    (delete_prog "42" "a.sav" {[cacheKey "42" := Entry (VArr []) 0]})
  = ((Response 200 (message_body "Save file 'a.sav' deleted successfully."),
      ∅),
     [owner_query "id, storage_path" "42" "a.sav";
      StorageRemove "save-files" [VStr "42/17_a.sav"];
      TableDelete "save_metadata" [("id", VNum 5)]]).
Proof. reflexivity. Qed.

(** * Sequences of calls and overlapping requests *)

Lemma run_app (calls1 calls2 : list (Z * op)) (c : gmap string entry) :
  run (calls1 ++ calls2) c = run calls2 (run calls1 c).
Proof.
  revert c. induction calls1 as [|[now o] rest IH]; intros c; [done|].
  simpl. apply IH.
Qed.

(** X20: the last write decides.  Whatever calls came before a
    [setCache(k, v)] made at time [t], and whatever calls on other keys
    come after it, the entry of [k] is [v] stamped [t]. *)
Theorem run_last_write (before after : list (Z * op)) (t : Z) (k : string)
    (v : value) (c : gmap string entry) :
  Forall (λ call, op_key call.2 ≠ k) after →
  run (before ++ (t, OpSet k v) :: after) c !! k = Some (Entry v t).
Proof.
  intros Hafter. rewrite run_app. simpl.
  rewrite lookup_run_others by done. apply lookup_setCache_eq.
Qed.

Lemma run_last_write_witness :
  run ([(1, OpSet "user:42:saves" (VNum 1));
        (2, OpInvalidate "user:42:saves")]
       ++ (3, OpSet "user:42:saves" (VNum 2))
          :: [(4, OpSet "user:7:saves" VNull)]) ∅
    !! "user:42:saves" = Some (Entry (VNum 2) 3).
Proof.
  apply run_last_write. repeat constructor; simpl; discriminate.
Defined.

(** X21: an invalidation does not stop a listing that is already under
    way.  If a listing request has sent its query, and an upload of the
    same user then goes through and invalidates the key, the continuation
    of the listing still stores what its query returned: the key holds
    that data again, and a later request within [CACHE_TTL_MS] of the
    store is served it from the cache. *)
Theorem list_settle_after_invalidation (t_set t_next : Z)
    (req : upload_request) (uploaded upserted cleaned : settled sdk_result)
    (d err : value) (c : gmap string entry) :
  upload_succeeded req uploaded upserted = true →
  truthy err = false →
  (list_settle t_set (up_user req) (Resolved (SdkResult d err))
     (post_upload req uploaded upserted cleaned c).2).2
    !! cacheKey (up_user req) = Some (Entry d t_set) ∧
  (truthy d = true → t_next - t_set < CACHE_TTL_MS →
   (list_lookup t_next (up_user req)
      (list_settle t_set (up_user req) (Resolved (SdkResult d err))
         (post_upload req uploaded upserted cleaned c).2).2).1
   = Some (Response 200 d)).
Proof.
  intros Hok Herr. rewrite post_upload_cache, Hok. simpl. rewrite Herr. simpl.
  split; [apply lookup_setCache_eq|].
  intros Hd Hfresh.
  by rewrite (list_lookup_hit t_next _ _ (Entry d t_set)
                (lookup_setCache_eq _ _ _ _) Hfresh Hd).
Qed.

Lemma list_settle_after_invalidation_witness :
  (list_settle 20 "42" (Resolved (SdkResult (VArr [VStr "old"]) VNull))
     (post_upload (UploadRequest "42" (Some "new.sav") NoMetadata)
        (Resolved (SdkResult VNull VNull))
        (Resolved (SdkResult (VArr []) VNull)) (Rejected "") ∅).2).2
    !! cacheKey "42" = Some (Entry (VArr [VStr "old"]) 20).
Proof.
  apply (list_settle_after_invalidation 20 21
           (UploadRequest "42" (Some "new.sav") NoMetadata)
           (Resolved (SdkResult VNull VNull))
           (Resolved (SdkResult (VArr []) VNull)) (Rejected "")
           (VArr [VStr "old"]) VNull ∅); reflexivity.
Defined.

(** A stored file name with a line feed: [res.setHeader] throws, the
    handler answers 500 and the file is not sent. *)
Example download_line_feed_name :
  (run_prog
     (λ call, Resolved (SdkResult
        (VObj [("storage_path", VStr "42/17_a.sav");
               ("file_name",
                VStr ("a" +:+ String (Ascii.ascii_of_nat 10) "b.sav"))])
        VNull))
     (download_prog (λ _, header_value_ok) "42" "a.sav"
        (inr (Resolved [])))).1
  = DownloadResponse 500 []
      (Json (details_body
               "An unexpected error occurred during file download."
               (VStr (invalid_header_message "Content-Disposition")))).
Proof. reflexivity. Qed.
